(** * FakeI2cBus: provisioning of an i2c-stub bus and of its alias

    Shallow embedding of
    [src/implementacao/fake_devices/fake_interfaces/fake_i2c.py].

    The class shells out to [modprobe] and [i2cdetect], parses the text
    that comes back, and manipulates a symbolic link below [/dev].  The
    embedding keeps these three layers apart:

    - the Python built-ins the code calls on text and integers
      ([str.split], [str.strip], [in], [int], [hex], [str], [str.join]);
    - the part of the [os] module it calls, over a finite map from
      paths to directory entries;
    - the methods of the class, in a state-and-exception monad that also
      records every effect issued, in order.

    Text is [string]: a character is a code point below 256, which covers
    the ASCII output of the tools involved. *)

From Stdlib Require Import ZArith NArith List Bool Ascii String Lia.
From Stdlib Require Import DecimalString HexadecimalString.
From Stdlib Require HexadecimalPos HexadecimalN DecimalPos DecimalZ.
From stdpp Require Import base option gmap strings.

Import ListNotations.
Local Open Scope string_scope.
Local Open Scope Z_scope.

(* ================================================================== *)
(** ** Python built-ins on text *)
(* ================================================================== *)

Module Py.

(** [str.isspace] for the code points below 256: TAB..CR, FS..US, space,
    NEL and NBSP. *)
Definition is_space (c : ascii) : bool :=
  let n := N_of_ascii c in
  ((9 <=? n) && (n <=? 13) || (28 <=? n) && (n <=? 32)
   || (n =? 133) || (n =? 160))%N.

(** [c in chars] for a character. *)
Fixpoint mem (c : ascii) (chars : string) : bool :=
  match chars with
  | EmptyString => false
  | String d r => Ascii.eqb c d || mem c r
  end.

(** [sub in s]: [sub] occurs in [s] as a contiguous run. *)
Fixpoint contains (sub s : string) : bool :=
  String.prefix sub s ||
  match s with
  | EmptyString => false
  | String _ r => contains sub r
  end.

(** [s.split(sep)] for a one-character separator: every occurrence
    cuts, empty pieces are kept, the result is never empty. *)
Fixpoint split (sep : ascii) (s : string) : list string :=
  match s with
  | EmptyString => [EmptyString]
  | String c r =>
      if Ascii.eqb c sep then EmptyString :: split sep r
      else match split sep r with
           | x :: xs => String c x :: xs
           | [] => [String c EmptyString]
           end
  end.

(** [s.split()]: cut at runs of white space, no empty piece. [cur] is
    the piece being read. *)
Fixpoint tokens (cur s : string) : list string :=
  match s with
  | EmptyString => if String.eqb cur "" then [] else [cur]
  | String c r =>
      if is_space c
      then (if String.eqb cur "" then tokens "" r else cur :: tokens "" r)
      else tokens (cur ++ String c "") r
  end.

Definition split_ws (s : string) : list string := tokens "" s.

(** [s.lstrip(chars)], [s.rstrip(chars)], [s.strip(chars)]: [chars] is a
    SET of characters, removed from the ends for as long as they occur. *)
Fixpoint lstrip (chars s : string) : string :=
  match s with
  | EmptyString => EmptyString
  | String c r => if mem c chars then lstrip chars r else s
  end.

Fixpoint rstrip (chars s : string) : string :=
  match s with
  | EmptyString => EmptyString
  | String c r =>
      match rstrip chars r with
      | EmptyString => if mem c chars then EmptyString else String c EmptyString
      | r' => String c r'
      end
  end.

Definition strip (chars s : string) : string := rstrip chars (lstrip chars s).

(** White space at both ends, as [int] removes it before reading. *)
Fixpoint lstrip_ws (s : string) : string :=
  match s with
  | EmptyString => EmptyString
  | String c r => if is_space c then lstrip_ws r else s
  end.

Fixpoint rstrip_ws (s : string) : string :=
  match s with
  | EmptyString => EmptyString
  | String c r =>
      match rstrip_ws r with
      | EmptyString => if is_space c then EmptyString else String c EmptyString
      | r' => String c r'
      end
  end.

(** [sep.join(l)]. *)
Fixpoint join (sep : string) (l : list string) : string :=
  match l with
  | [] => ""
  | [x] => x
  | x :: r => x ++ sep ++ join sep r
  end.

(** ** Python built-ins on integers *)

(** [str(n)] for an [int]. *)
Definition str (n : Z) : string :=
  DecimalString.NilEmpty.string_of_int (Z.to_int n).

(** [hex(n)] for an [int]: lowercase digits after [0x], the sign in front. *)
Definition hex_digits (n : N) : string :=
  HexadecimalString.NilEmpty.string_of_uint (N.to_hex_uint n).

Definition hex (n : Z) : string :=
  if n <? 0 then "-0x" ++ hex_digits (Z.to_N (- n))
  else "0x" ++ hex_digits (Z.to_N n).

(** The value of a decimal digit. *)
Definition digit_value (c : ascii) : option Z :=
  let n := N_of_ascii c in
  if ((48 <=? n) && (n <=? 57))%N then Some (Z.of_N (n - 48)) else None.

(** The digits of an [int] literal: at least one digit, single
    underscores allowed between digits only. [acc] is the value read so
    far; [started] tells that a digit has just been read. *)
Fixpoint digits (acc : Z) (started : bool) (s : string) : option Z :=
  match s with
  | EmptyString => if started then Some acc else None
  | String c r =>
      match digit_value c with
      | Some d => digits (10 * acc + d) true r
      | None =>
          if Ascii.eqb c "_" && started
          then match r with
               | EmptyString => None
               | String c' _ =>
                   match digit_value c' with
                   | Some _ => digits acc false r
                   | None => None
                   end
               end
          else None
      end
  end.

(** [int(s)] in base ten: [None] is [ValueError]. (The bound recent
    versions put on the number of digits is left out.) *)
Definition int (s : string) : option Z :=
  match rstrip_ws (lstrip_ws s) with
  | String "-" r => option_map Z.opp (digits 0 false r)
  | String "+" r => digits 0 false r
  | t => digits 0 false t
  end.

End Py.

(* ================================================================== *)
(** ** Exceptions *)
(* ================================================================== *)

(** The [OSError] subclasses the file operations below raise. *)
Inductive oserror :=
| FileNotFoundError      (* ENOENT *)
| FileExistsError        (* EEXIST *)
| IsADirectoryError      (* EISDIR *)
| InvalidArgument.       (* plain OSError, EINVAL *)

(** [repr(e)] for these: the class and [(errno, strerror)]. *)
Definition repr (e : oserror) : string :=
  match e with
  | FileNotFoundError => "FileNotFoundError(2, 'No such file or directory')"
  | FileExistsError => "FileExistsError(17, 'File exists')"
  | IsADirectoryError => "IsADirectoryError(21, 'Is a directory')"
  | InvalidArgument => "OSError(22, 'Invalid argument')"
  end.

Inductive exn :=
| FakeI2cException (msg : string)   (* the class of the repository *)
| ValueError (literal : string)     (* int() on a text that is no literal *)
| TypeError (msg : string)
| IndexError
| OSError (e : oserror)
| External (what : string).         (* raised inside subprocess or smbus2 *)

(* ================================================================== *)
(** ** The part of [os] and [os.path] the class calls *)
(* ================================================================== *)

(** A directory entry. A device node is a [File]. *)
Inductive inode :=
| Link (target : string)
| File
| Dir.

(** Effects, in the order issued. Queries ([islink], [readlink],
    [exists]) change nothing and are not recorded. *)
Inductive event :=
| Run (cmd : string)                (* subprocess.run(cmd, shell=True, ...) *)
| Unlink (path : string)            (* os.unlink(path) *)
| Symlink (src dst : string)        (* os.symlink(src, dst) *)
| TransportOpen (bus : Z)           (* smbus2.SMBus.open(bus) *)
| TransportClose.                   (* smbus2.SMBus.close() *)

Module os.

(** The key of a path written in full, as the class writes the alias
    path: absolute paths stand, others are appended to the directory,
    which is written with its final slash. *)
Definition from_dir (dir p : string) : string :=
  match p with
  | String "/" _ => p
  | _ => dir ++ p
  end.

(** The pieces of a path between its slashes, and those that name
    something. *)
Definition components (p : string) : list string := Py.split "/" p.

Definition named (p : string) : list string :=
  filter (fun c => negb (String.eqb c "")) (components p).

Definition absolute (p : string) : bool := String.prefix "/" p.

(** An absolute path written from the names on it; the root is [/].
    The file system is keyed by paths written this way. *)
Definition render (names : list string) : string := "/" ++ Py.join "/" names.

Fixpoint starts_with {A} (eqb : A -> A -> bool) (d l : list A) : bool :=
  match d, l with
  | [], _ => true
  | x :: d', y :: l' => eqb x y && starts_with eqb d' l'
  | _ :: _, [] => false
  end.

(** Directories are recorded as [Dir] or stand unrecorded: the root,
    the working directory and those above it, and every directory with
    a recorded entry below it. *)
Definition is_dir (fs : gmap string inode) (cwd dir : list string) : bool :=
  match dir with
  | [] => true
  | _ =>
      match fs !! render dir with
      | Some Dir => true
      | Some _ => false
      | None =>
          starts_with String.eqb dir cwd
          || existsb (fun entry => String.prefix (render dir ++ "/") (fst entry))
               (map_to_list fs)
      end
  end.

(** Path resolution, as [stat] does it: from the directory [cur], name
    by name. An empty name and [.] stay, [..] goes up, a link is read
    from the directory it lies in (from the root when its target is
    absolute), and what is left of the path is walked from there. A name
    is looked up in a directory only; the kernel gives up after [links]
    links. The answer is whether the walk arrives. *)
Fixpoint walk (links : nat) (fs : gmap string inode) (cwd : list string)
    (cur todo : list string) {struct links} : bool :=
  (fix go (cur todo : list string) {struct todo} : bool :=
     match todo with
     | [] => true
     | name :: rest =>
         if negb (is_dir fs cwd cur) then false
         else if String.eqb name "" || String.eqb name "." then go cur rest
         else if String.eqb name ".." then go (removelast cur) rest
         else
           match fs !! render (cur ++ [name])%list with
           | Some (Link target) =>
               match links with
               | O => false
               | S links' =>
                   if String.eqb target "" then false
                   else walk links' fs cwd
                          (if absolute target then [] else cur)
                          (components target ++ rest)%list
               end
           | Some _ => go (cur ++ [name])%list rest
           | None =>
               if is_dir fs cwd (cur ++ [name])%list then go (cur ++ [name])%list rest
               else false
           end
     end) cur todo.

(** Whether the path [p], read from the directory [dir], names
    something; the empty path names nothing. *)
Definition exists_from (fs : gmap string inode) (cwd dir : list string)
    (p : string) : bool :=
  if String.eqb p "" then false
  else walk 40 fs cwd (if absolute p then [] else dir) (components p).

End os.

(* ================================================================== *)
(** ** The class *)
(* ================================================================== *)

(** What the host holds besides the file system (the kernel's modules,
    the descriptor of the transport) has a type [H] the class never
    looks inside. *)
Record World (H : Type) := {
  fs : gmap string inode;   (* absolute path -> entry *)
  cwd : string;             (* working directory, with its final slash *)
  host : H
}.
Arguments fs {H}.
Arguments cwd {H}.
Arguments host {H}.

(** The attributes of an instance; [None] is Python's [None]. *)
Record FakeI2cBus := {
  __bus : option Z;
  __real_bus : option Z;
  __bus_link : option string;
  __real_bus_path : option string;
  __devices_list : option (list Z)
}.

Record state (H : Type) := { self : FakeI2cBus; world : World H }.
Arguments self {H}.
Arguments world {H}.

(** The collaborators outside the repository.
    - [subprocess_run cmd]: [subprocess.run(cmd, shell=True, stdout=PIPE,
      stderr=PIPE)] and the decoding of both streams: the exit status,
      the text of stdout and of stderr, or an exception; the command may
      change anything on the host.
    - [SMBus_open], [SMBus_close]: the methods of the base class
      [smbus2.SMBus]; they read the host and change only its non-file
      part. *)
Record Env (H : Type) := {
  subprocess_run : string -> World H -> (exn + Z * string * string) * World H;
  SMBus_open : Z -> World H -> exn + H;
  SMBus_close : World H -> exn + H
}.
Arguments subprocess_run {H}.
Arguments SMBus_open {H}.
Arguments SMBus_close {H}.

(** ** State, exceptions and the record of effects *)

Section Monad.

Context {H : Type}.

Record result (E A : Type) := Res {
  outcome : E + A;          (* raised or returned *)
  after : state H;
  issued : list event
}.
Arguments Res {E A}.
Arguments outcome {E A}.
Arguments after {E A}.
Arguments issued {E A}.

Definition M (E A : Type) : Type := state H -> result E A.

Definition ret {E A} (a : A) : M E A := fun s => Res (inr a) s [].

Definition raise {E A} (e : E) : M E A := fun s => Res (inl e) s [].

(** A result, behind the effects issued before it. *)
Definition preceded {E A} (ev : list event) (r : result E A) : result E A :=
  Res (outcome r) (after r) (ev ++ issued r).

Definition bind {E A B} (m : M E A) (f : A -> M E B) : M E B :=
  fun s =>
    let r := m s in
    match outcome r with
    | inl e => Res (inl e) (after r) (issued r)
    | inr a => preceded (issued r) (f a (after r))
    end.

(** [try: m except ... as e: h e]; what [m] did before raising stays. *)
Definition try_except {E E' A} (m : M E A) (h : E -> M E' A) : M E' A :=
  fun s =>
    let r := m s in
    match outcome r with
    | inl e => preceded (issued r) (h e (after r))
    | inr a => Res (inr a) (after r) (issued r)
    end.

Definition get_self {E} : M E FakeI2cBus := fun s => Res (inr (self s)) s [].

Definition get_world {E} : M E (World H) := fun s => Res (inr (world s)) s [].

Definition set_self {E} (f : FakeI2cBus -> FakeI2cBus) : M E unit :=
  fun s => Res (inr tt) {| self := f (self s); world := world s |} [].

Definition set_world {E} (w : World H) : M E unit :=
  fun s => Res (inr tt) {| self := self s; world := w |} [].

Definition emit {E} (e : event) : M E unit := fun s => Res (inr tt) s [e].

End Monad.

Arguments result : clear implicits.
Arguments M : clear implicits.
Arguments Res {H E A}.
Arguments outcome {H E A}.
Arguments after {H E A}.
Arguments issued {H E A}.
Arguments preceded {H E A}.

Notation "x <- m ;; k" := (bind m (fun x => k))
  (at level 100, m at next level, right associativity).
Notation "m ;;; k" := (bind m (fun _ => k))
  (at level 100, right associativity).

Section FakeI2cBus.

Context {H : Type} (env : Env H).

Abbreviation World := (World H).
Abbreviation M := (M H).

(** *** File operations on the world *)

(** The entry a path names, without following it.  The class asks this
    of the alias path only, [/dev/i2c-] and the text of an integer: a
    path written in full, with no [.], no [..] and no doubled slash, the
    way the file system is keyed. *)
Definition entry (w : World) (p : string) : option inode :=
  if String.eqb p "" then None else fs w !! os.from_dir (cwd w) p.

Definition with_fs (w : World) (f : gmap string inode) : World :=
  {| fs := f; cwd := cwd w; host := host w |}.

Definition with_host (w : World) (h : H) : World :=
  {| fs := fs w; cwd := cwd w; host := h |}.

(** [os.path.islink(p)]: never raises. *)
Definition islink (w : World) (p : string) : bool :=
  match entry w p with
  | Some (Link _) => true
  | _ => false
  end.

(** [os.path.exists(p)]: [stat] on [p], links followed, [.], [..] and
    empty names resolved; never raises. A relative [p] is read from the
    working directory of the process. *)
Definition path_exists (w : World) (p : string) : bool :=
  os.exists_from (fs w) (os.named (cwd w)) (os.named (cwd w)) p.

(** [os.readlink(p)]. *)
Definition readlink (p : string) : M oserror string :=
  w <- get_world ;;
  match entry w p with
  | Some (Link t) => ret t
  | Some _ => raise InvalidArgument
  | None => raise FileNotFoundError
  end.

(** [os.unlink(p)]. *)
Definition unlink (p : string) : M oserror unit :=
  emit (Unlink p) ;;;
  w <- get_world ;;
  match entry w p with
  | None => raise FileNotFoundError
  | Some Dir => raise IsADirectoryError
  | Some _ => set_world (with_fs w (delete (os.from_dir (cwd w) p) (fs w)))
  end.

(** [os.symlink(src, dst)]: [src] is stored as written. *)
Definition symlink (src dst : string) : M oserror unit :=
  emit (Symlink src dst) ;;;
  w <- get_world ;;
  if String.eqb dst "" then raise FileNotFoundError
  else match entry w dst with
       | Some _ => raise FileExistsError
       | None => set_world (with_fs w (<[os.from_dir (cwd w) dst := Link src]> (fs w)))
       end.

(** *** The base class [smbus2.SMBus] *)

(** [super().open(bus)]. *)
Definition super_open (bus : option Z) : M exn unit :=
  match bus with
  | None => raise (TypeError "Unexpected type(bus)=<class 'NoneType'>")
  | Some n =>
      emit (TransportOpen n) ;;;
      w <- get_world ;;
      match SMBus_open env n w with
      | inl e => raise e
      | inr h => set_world (with_host w h)
      end
  end.

(** [super().close()]. *)
Definition super_close : M exn unit :=
  emit TransportClose ;;;
  w <- get_world ;;
  match SMBus_close env w with
  | inl e => raise e
  | inr h => set_world (with_host w h)
  end.

(** *** Attribute assignments *)

Definition set___bus (v : option Z) (o : FakeI2cBus) : FakeI2cBus :=
  {| __bus := v; __real_bus := __real_bus o; __bus_link := __bus_link o;
     __real_bus_path := __real_bus_path o; __devices_list := __devices_list o |}.

Definition set___real_bus (v : option Z) (o : FakeI2cBus) : FakeI2cBus :=
  {| __bus := __bus o; __real_bus := v; __bus_link := __bus_link o;
     __real_bus_path := __real_bus_path o; __devices_list := __devices_list o |}.

Definition set___bus_link (v : option string) (o : FakeI2cBus) : FakeI2cBus :=
  {| __bus := __bus o; __real_bus := __real_bus o; __bus_link := v;
     __real_bus_path := __real_bus_path o; __devices_list := __devices_list o |}.

Definition set___real_bus_path (v : option string) (o : FakeI2cBus) : FakeI2cBus :=
  {| __bus := __bus o; __real_bus := __real_bus o; __bus_link := __bus_link o;
     __real_bus_path := v; __devices_list := __devices_list o |}.

Definition set___devices_list (v : option (list Z)) (o : FakeI2cBus) : FakeI2cBus :=
  {| __bus := __bus o; __real_bus := __real_bus o; __bus_link := __bus_link o;
     __real_bus_path := __real_bus_path o; __devices_list := v |}.

(** [str(x)] for an attribute holding an [int] or [None]. *)
Definition str_attr (x : option Z) : string :=
  match x with
  | Some n => Py.str n
  | None => "None"
  end.

(** *** Methods *)

(** [__run_cmd], lines 108-114. *)
Definition __run_cmd (cmd : string) : M exn (Z * string * string) :=
  emit (Run cmd) ;;;
  w <- get_world ;;
  let (r, w') := subprocess_run env cmd w in
  set_world w' ;;;
  match r with
  | inl e => raise e
  | inr result => ret result
  end.

(** The message of line 122. *)
Definition cannot_run (cmd : string) (status : Z) (stderr : string) : string :=
  "Cannot run command '" ++ cmd ++ "'. Shell returns: [" ++ Py.str status
  ++ "] - " ++ stderr.

(** [__run_cmd_raise_exception], lines 116-125. *)
Definition __run_cmd_raise_exception (cmd : string) : M exn (Z * string) :=
  result <- __run_cmd cmd ;;
  let '(status, stdout, stderr) := result in
  if negb (status =? 0)
  then raise (FakeI2cException (cannot_run cmd status stderr))
  else ret (status, stdout).

(** The loop of lines 133-137: the value of [i2c_bus] when it ends. *)
Fixpoint find_stub_line (lines : list string) : M exn (option string) :=
  match lines with
  | [] => ret None
  | line :: rest =>
      if Py.contains "SMBus stub driver" line
      then match Py.split_ws line with
           | [] => raise IndexError
           | i2c_bus :: _ =>
               match Py.int (Py.strip "i2c-" i2c_bus) with
               | None => raise (ValueError (Py.strip "i2c-" i2c_bus))
               | Some n =>
                   set_self (set___real_bus (Some n)) ;;;
                   ret (Some i2c_bus)
               end
           end
      else find_stub_line rest
  end.

(** The body of the [try] of lines 144-151; [bus_link] is the value
    line 142 has just stored in [self.__bus_link]. *)
Definition create_link (bus_link i2c_bus : string) : M oserror unit :=
  w <- get_world ;;
  dangling <- (if islink w bus_link
               then target <- readlink bus_link ;;
                    w' <- get_world ;;
                    ret (negb (path_exists w' target))
               else ret false) ;;
  (if dangling : bool then unlink bus_link else ret tt) ;;;
  let real_bus_path := "/dev/" ++ i2c_bus in
  set_self (set___real_bus_path (Some real_bus_path)) ;;;
  w <- get_world ;;
  if negb (islink w bus_link)
  then symlink real_bus_path bus_link
  else ret tt.

(** [__symlink_i2c_stub], lines 127-153. *)
Definition __symlink_i2c_stub : M exn unit :=
  output <- __run_cmd_raise_exception "i2cdetect -l" ;;
  i2c_bus <- find_stub_line (Py.split "010" (snd output)) ;;
  match i2c_bus with
  | None => raise (FakeI2cException "SMBus stub driver not found")
  | Some i2c_bus =>
      o <- get_self ;;
      let bus_link := "/dev/i2c-" ++ str_attr (__bus o) in
      set_self (set___bus_link (Some bus_link)) ;;;
      try_except (create_link bus_link i2c_bus)
        (fun e => raise (FakeI2cException
                           ("Cannot create fake i2c symlink: " ++ repr e)))
  end.

(** The command of line 93. *)
Definition load_stub (devices_list : list Z) : string :=
  "modprobe i2c-stub chip_addr=" ++ Py.join "," (map Py.hex devices_list).

(** [__add_fake_devices], lines 86-95. *)
Definition __add_fake_devices (devices_list : option (list Z)) : M exn unit :=
  __run_cmd_raise_exception "modprobe i2c-dev" ;;;
  __run_cmd_raise_exception "modprobe -r i2c-stub" ;;;
  match devices_list with
  | None => raise (TypeError "'NoneType' object is not iterable")
  | Some l =>
      __run_cmd_raise_exception (load_stub l) ;;;
      __symlink_i2c_stub
  end.

(** [os.unlink(x)] for an attribute holding a path or [None]. *)
Definition unlink_attr (x : option string) : M exn unit :=
  match x with
  | None =>
      raise (TypeError
        "unlink: path should be string, bytes or os.PathLike, not NoneType")
  | Some p => try_except (unlink p) (fun e => raise (OSError e))
  end.

(** [__del_fake_devices], lines 97-106: the bare [except] takes all. *)
Definition __del_fake_devices : M exn unit :=
  try_except
    (__run_cmd "modprobe -r i2c-stub" ;;;
     o <- get_self ;;
     unlink_attr (__bus_link o))
    (fun _ : exn => ret tt).

(** [open], lines 42-49. *)
Definition open (bus : Z) (devices_list : option (list Z)) : M exn unit :=
  set_self (set___bus (Some bus)) ;;;
  set_self (set___devices_list devices_list) ;;;
  __add_fake_devices devices_list ;;;
  o <- get_self ;;
  super_open (__real_bus o).

(** [close], lines 51-56. *)
Definition close : M exn unit :=
  super_close ;;;
  __del_fake_devices.

(** [__init__], lines 23-34; [super().__init__()] opens nothing. *)
Definition __init__ (bus : option Z) (devices_list : option (list Z)) : M exn unit :=
  set_self (fun _ => {| __bus := bus; __real_bus := None; __bus_link := None;
                        __real_bus_path := None; __devices_list := None |}) ;;;
  match bus with
  | Some b => open b devices_list
  | None => ret tt
  end.

(** [__del__], lines 36-37. *)
Definition __del__ : M exn unit := close.

(** The accessors, lines 58-84. *)
Definition bus (o : FakeI2cBus) : option Z := __bus o.

Definition bus_path (o : FakeI2cBus) : string :=
  match __bus_link o with
  | Some l => if String.eqb l "" then "" else l
  | None => ""
  end.

Definition real_bus (o : FakeI2cBus) : option Z := __real_bus o.

Definition real_bus_path (o : FakeI2cBus) : string :=
  match __real_bus_path o with
  | Some l => if String.eqb l "" then "" else l
  | None => ""
  end.

(** [__str__], lines 39-40. *)
Definition __str__ (o : FakeI2cBus) : string := bus_path o.

End FakeI2cBus.


(* ================================================================== *)
(** ** Vocabulary of the statements *)
(* ================================================================== *)

(** The commands [open] issues, in order (lines 90, 91, 93, 131). *)
Definition open_commands (devices_list : list Z) : list string :=
  ["modprobe i2c-dev"; "modprobe -r i2c-stub"; load_stub devices_list;
   "i2cdetect -l"].

(** The commands before the enumeration. *)
Definition module_commands (devices_list : list Z) : list string :=
  ["modprobe i2c-dev"; "modprobe -r i2c-stub"; load_stub devices_list].

(** The host after a run of commands that all exit with status 0. *)
Fixpoint run_all {H} (env : Env H) (cmds : list string) (w : World H)
    : option (World H) :=
  match cmds with
  | [] => Some w
  | c :: rest =>
      match subprocess_run env c w with
      | (inr (0, _, _), w') => run_all env rest w'
      | _ => None
      end
  end.

(** The first line of an enumeration that carries the marker, and its
    first token. *)
Definition stub_line (out : string) : option string :=
  List.find (Py.contains "SMBus stub driver") (Py.split "010" out).

Definition stub_token (out : string) : option string :=
  match stub_line out with
  | Some line => head (Py.split_ws line)
  | None => None
  end.

(** The attributes [open(bus, devices_list)] stores before any command. *)
Definition entered (bus : Z) (devices_list : option (list Z)) (o : FakeI2cBus)
    : FakeI2cBus :=
  set___devices_list devices_list (set___bus (Some bus) o).

(** Reading back a text of lowercase hexadecimal digits. [None] when a
    character is not one of [0-9a-f] or when there is no digit. *)
Definition lower_hex_digit (c : ascii) : option Z :=
  let n := N_of_ascii c in
  if ((48 <=? n) && (n <=? 57))%N then Some (Z.of_N (n - 48))
  else if ((97 <=? n) && (n <=? 102))%N then Some (Z.of_N (n - 87))
  else None.

Fixpoint lower_hex_from (acc : Z) (s : string) : option Z :=
  match s with
  | EmptyString => Some acc
  | String c r =>
      match lower_hex_digit c with
      | Some d => lower_hex_from (16 * acc + d) r
      | None => None
      end
  end.

Definition lower_hex_value (s : string) : option Z :=
  match s with
  | EmptyString => None
  | _ => lower_hex_from 0 s
  end.

(** [t] writes [a] in lowercase hexadecimal behind the prefix [0x]. *)
Definition lower_hex_of (a : Z) (t : string) : Prop :=
  exists ds, t = "0x" ++ ds /\ lower_hex_value ds = Some a.

(** [t] is the lowercase hexadecimal literal of [a]: the prefix [0x] and
    digits that read back as [a], with no zero in front of them unless
    the digit [0] is all there is. *)
Definition hex_literal_of (a : Z) (t : string) : Prop :=
  exists ds, t = "0x" ++ ds
             /\ lower_hex_value ds = Some a
             /\ (ds = "0" \/ String.prefix "0" ds = false).

(** The specification's "comma-separated": [comma_separated pieces t]
    says that [t] is the pieces written one after the other, in their
    order, with one comma between two neighbours and nothing else.  It
    is stated on its own, without [Py.join], for [load_stub] to be
    compared with. *)
Inductive comma_separated : list string -> string -> Prop :=
  | no_piece : comma_separated [] ""
  | one_piece p : comma_separated [p] p
  | more_pieces p q rest t :
      comma_separated (q :: rest) t ->
      comma_separated (p :: q :: rest) (p ++ "," ++ t).

(** The specification's "the target of the link exists": the target as
    the system reads it when it follows the link at [link], an absolute
    target from the root and a relative one from the directory that
    holds the link.  [path_exists w target], which is what
    [__symlink_i2c_stub] computes, reads a relative target from the
    working directory instead. *)
Definition link_target_exists {H} (w : World H) (link target : string) : bool :=
  os.exists_from (fs w) (os.named (cwd w)) (removelast (os.named link)) target.

(** A computation that leaves an attribute (or any view [f] of the
    instance) as it found it, however it ends. *)
Definition keeps {H E A X} (f : FakeI2cBus -> X) (m : M H E A) : Prop :=
  forall s, f (self (after (m s))) = f (self s).

(** A computation all of whose effects satisfy [P], however it ends. *)
Definition issues_only {H E A} (P : event -> Prop) (m : M H E A) : Prop :=
  forall s, Forall P (issued (m s)).

(** An effect that is not the opening of the transport. *)
Definition not_transport_open (e : event) : Prop :=
  match e with
  | TransportOpen _ => False
  | _ => True
  end.

(* ================================================================== *)
(** ** A host to run the class on *)
(* ================================================================== *)

Module Demo.

Definition TAB : string := String "009" "".
Definition NL : string := String "010" "".

(** The non-file part of the host: whether i2c-stub is loaded, the
    descriptors the process holds, and [self.fd] of the transport. *)
Record machine := {
  stub_loaded : bool;
  open_fds : list Z;
  transport_fd : option Z
}.

(** A host on which [i2cdetect -l] prints [listing], the stub's device
    node is [node], and [modprobe -r i2c-stub] exits with
    [unload_status]. The transport follows smbus2: [open] opens the
    device node of the bus, [close] closes [self.fd] when it is set. *)
Definition run (listing node : string) (unload_status : Z)
    (cmd : string) (w : World machine) : (exn + Z * string * string) * World machine :=
  if String.eqb cmd "modprobe i2c-dev" then (inr (0, "", ""), w)
  else if String.eqb cmd "modprobe -r i2c-stub" then
    if unload_status =? 0
    then (inr (0, "", ""),
          {| fs := delete node (fs w); cwd := cwd w;
             host := {| stub_loaded := false; open_fds := open_fds (host w);
                        transport_fd := transport_fd (host w) |} |})
    else (inr (unload_status, "", "modprobe: FATAL: Module i2c_stub is in use."), w)
  else if String.prefix "modprobe i2c-stub chip_addr=" cmd then
    (inr (0, "", ""),
     {| fs := <[node := File]> (fs w); cwd := cwd w;
        host := {| stub_loaded := true; open_fds := open_fds (host w);
                   transport_fd := transport_fd (host w) |} |})
  else if String.eqb cmd "i2cdetect -l" then (inr (0, listing, ""), w)
  else (inr (127, "", "/bin/sh: 1: " ++ cmd ++ ": not found"), w).

Definition transport_open (n : Z) (w : World machine) : exn + machine :=
  if path_exists w ("/dev/i2c-" ++ Py.str n)
  then inr {| stub_loaded := stub_loaded (host w);
              open_fds := 3 :: open_fds (host w);
              transport_fd := Some 3 |}
  else inl (OSError FileNotFoundError).

Definition transport_close (w : World machine) : exn + machine :=
  match transport_fd (host w) with
  | None => inr (host w)
  | Some fd =>
      if existsb (Z.eqb fd) (open_fds (host w))
      then inr {| stub_loaded := stub_loaded (host w);
                  open_fds := filter (fun x => negb (Z.eqb fd x)) (open_fds (host w));
                  transport_fd := None |}
      else inl (External "OSError(9, 'Bad file descriptor')")
  end.

Definition env (listing node : string) (unload_status : Z) : Env machine :=
  {| subprocess_run := run listing node unload_status;
     SMBus_open := transport_open;
     SMBus_close := transport_close |}.

(** The instance [FakeI2cBus()] builds, on a host with nothing loaded. *)
Definition fresh : FakeI2cBus :=
  {| __bus := None; __real_bus := None; __bus_link := None;
     __real_bus_path := None; __devices_list := None |}.

Definition boot (files : gmap string inode) : state machine :=
  {| self := fresh;
     world := {| fs := files; cwd := "/root/";
                 host := {| stub_loaded := false; open_fds := [];
                            transport_fd := None |} |} |}.

(** One line of [i2cdetect -l] for the stub, as i2c-tools prints it. *)
Definition stub_line (name : string) : string :=
  name ++ TAB ++ "smbus     " ++ TAB ++ "SMBus stub driver               "
  ++ TAB ++ "SMBus adapter".

Definition adapter_line (name : string) : string :=
  name ++ TAB ++ "i2c       " ++ TAB ++ "i915 gmbus dpb                  "
  ++ TAB ++ "I2C adapter".

(** Enumerations: the stub on bus 7, the stub on bus 12 beside a real
    bus 1, and no stub at all. *)
Definition listing_7 : string :=
  adapter_line "i2c-0" ++ NL ++ stub_line "i2c-7" ++ NL.

Definition listing_12 : string :=
  adapter_line "i2c-1" ++ NL ++ stub_line "i2c-12" ++ NL.

Definition listing_none : string :=
  adapter_line "i2c-0" ++ NL.

(** The same host when no process can be started: [subprocess.run]
    raises for every command. *)
Definition env_no_fork : Env machine :=
  {| subprocess_run := fun _ w =>
       (inl (External "BlockingIOError(11, 'Resource temporarily unavailable')"), w);
     SMBus_open := transport_open;
     SMBus_close := transport_close |}.

(** A caller closes the descriptor of the transport behind its back
    ([os.close(bus.fd)]). *)
Definition descriptor_closed_elsewhere (s : state machine) : state machine :=
  {| self := self s;
     world := {| fs := fs (world s); cwd := cwd (world s);
                 host := {| stub_loaded := stub_loaded (host (world s));
                            open_fds := [];
                            transport_fd := transport_fd (host (world s)) |} |} |}.

End Demo.

(* ================================================================== *)
(** ** The built-ins on examples *)
(* ================================================================== *)

Example split_lines : Py.split "010" ("a" ++ String "010" "" ++ "b" ++ String "010" "")
                      = ["a"; "b"; ""].
Proof. reflexivity. Qed.

Example split_ws_line :
  Py.split_ws ("i2c-7" ++ String "009" "" ++ "unknown   " ++ String "009" "" ++ "SMBus stub driver")
  = ["i2c-7"; "unknown"; "SMBus"; "stub"; "driver"].
Proof. reflexivity. Qed.

Example strip_7 : Py.strip "i2c-" "i2c-7" = "7".
Proof. reflexivity. Qed.

Example strip_12 : Py.strip "i2c-" "i2c-12" = "1".
Proof. reflexivity. Qed.

Example strip_2 : Py.strip "i2c-" "i2c-2" = "".
Proof. reflexivity. Qed.

Example int_7 : Py.int "7" = Some 7.
Proof. reflexivity. Qed.

Example int_empty : Py.int "" = None.
Proof. reflexivity. Qed.

Example int_misc : (Py.int " -1_000 ", Py.int "1__0", Py.int "_1", Py.int "1_", Py.int "+")
   = (Some (-1000), None, None, None, None).
Proof. reflexivity. Qed.

Example hex_32 : (Py.hex 32, Py.hex 0, Py.hex 255, Py.hex (-1)) = ("0x20", "0x0", "0xff", "-0x1").
Proof. reflexivity. Qed.

Example str_ex : (Py.str 0, Py.str 12, Py.str (-3)) = ("0", "12", "-3").
Proof. reflexivity. Qed.

Example join_ex : Py.join "," ["a"; "b"; "c"] = "a,b,c".
Proof. reflexivity. Qed.

(* ================================================================== *)
(** ** The class on examples *)
(* ================================================================== *)

(** The scenario of the specification: [open(3, [0x1C])] with the stub
    on bus 7 and nothing at [/dev/i2c-3]. *)
Example open_3_on_stub_7 :
  let r := open (Demo.env Demo.listing_7 "/dev/i2c-7" 0) 3 (Some [28])
             (Demo.boot ∅) in
  outcome r = inr tt
  /\ real_bus (self (after r)) = Some 7
  /\ bus_path (self (after r)) = "/dev/i2c-3"
  /\ real_bus_path (self (after r)) = "/dev/i2c-7"
  /\ entry (world (after r)) "/dev/i2c-3" = Some (Link "/dev/i2c-7").
Proof. cbn zeta. repeat split; reflexivity. Qed.

(** The stub on bus 2: nothing is left of [i2c-2] after line 136 has
    stripped it, and [int] raises. *)
Example open_on_stub_2 :
  let r := open (Demo.env (Demo.stub_line "i2c-2") "/dev/i2c-2" 0) 3
             (Some [28]) (Demo.boot ∅) in
  outcome r = inl (ValueError "")
  /\ real_bus (self (after r)) = None
  /\ entry (world (after r)) "/dev/i2c-3" = None.
Proof. cbn zeta. repeat split; reflexivity. Qed.

(** A link written relative to [/dev] is read from the working
    directory of the process: [/dev/i2c-3 -> i2c-7] counts as dangling
    for a process in [/root/], and is replaced. *)
Example open_over_relative_link :
  issued (open (Demo.env Demo.listing_7 "/dev/i2c-7" 0) 3 (Some [28])
            (Demo.boot {[ "/dev/i2c-3" := Link "i2c-7" ]})) =
  [Run "modprobe i2c-dev"; Run "modprobe -r i2c-stub";
   Run "modprobe i2c-stub chip_addr=0x1c"; Run "i2cdetect -l";
   Unlink "/dev/i2c-3"; Symlink "/dev/i2c-7" "/dev/i2c-3"; TransportOpen 7].
Proof. reflexivity. Qed.

(** [FakeI2cBus()] and then [close()]: the unload is issued, the
    removal raises [TypeError] on [None] before any system call, and
    [close] returns. *)
Example close_never_opened :
  let env := Demo.env Demo.listing_7 "/dev/i2c-7" 0 in
  let s := after (__init__ env None None (Demo.boot ∅)) in
  self s = Demo.fresh
  /\ outcome (close env s) = inr tt
  /\ issued (close env s) = [TransportClose; Run "modprobe -r i2c-stub"].
Proof. cbn zeta. repeat split; reflexivity. Qed.

(** The alias path is taken by a device node: [os.symlink] refuses and
    [open] raises with the [repr] of the error. *)
Example open_on_taken_path :
  outcome (open (Demo.env Demo.listing_7 "/dev/i2c-7" 0) 0 (Some [28])
             (Demo.boot {[ "/dev/i2c-0" := File ]})) =
  inl (FakeI2cException
         "Cannot create fake i2c symlink: FileExistsError(17, 'File exists')").
Proof. reflexivity. Qed.

(* ================================================================== *)
(** ** Equations of the methods *)
(* ================================================================== *)

(** Evaluate, rewriting with the facts at hand wherever evaluation stops. *)
Ltac evaluate_with tac := repeat first [progress cbn | tac].

Section Equations.

Context {H : Type} (env : Env H).

Implicit Types (s : state H) (w : World H) (o : FakeI2cBus).

Lemma bind_returns {E A B} (m : M H E A) (f : A -> M H E B) s a s1 ev :
  m s = Res (inr a) s1 ev ->
  bind m f s = preceded ev (f a s1).
Proof. intros Hm. unfold bind. rewrite Hm. reflexivity. Qed.

Lemma bind_raises {E A B} (m : M H E A) (f : A -> M H E B) s e s1 ev :
  m s = Res (inl e) s1 ev ->
  bind m f s = Res (inl e) s1 ev.
Proof. intros Hm. unfold bind. rewrite Hm. reflexivity. Qed.

(** [__run_cmd] hands over what the subprocess gave. *)
Lemma run_cmd_eq cmd s :
  __run_cmd env cmd s =
  Res (fst (subprocess_run env cmd (world s)))
      {| self := self s; world := snd (subprocess_run env cmd (world s)) |}
      [Run cmd].
Proof.
  unfold __run_cmd, bind, emit, get_world, set_world, ret, raise. cbn.
  destruct (subprocess_run env cmd (world s)) as [[e|r] w']; reflexivity.
Qed.

(** The three ways [__run_cmd_raise_exception] ends. *)
Lemma run_checked_zero cmd s out err w' :
  subprocess_run env cmd (world s) = (inr (0, out, err), w') ->
  __run_cmd_raise_exception env cmd s =
  Res (inr (0, out)) {| self := self s; world := w' |} [Run cmd].
Proof.
  intros Hrun. unfold __run_cmd_raise_exception, bind.
  rewrite run_cmd_eq, Hrun. reflexivity.
Qed.

Lemma run_checked_nonzero cmd s status out err w' :
  subprocess_run env cmd (world s) = (inr (status, out, err), w') ->
  status <> 0 ->
  __run_cmd_raise_exception env cmd s =
  Res (inl (FakeI2cException (cannot_run cmd status err)))
      {| self := self s; world := w' |} [Run cmd].
Proof.
  intros Hrun Hst. unfold __run_cmd_raise_exception, bind.
  rewrite run_cmd_eq, Hrun. cbn.
  destruct (Z.eqb_spec status 0) as [->|_]; [contradiction|reflexivity].
Qed.

Lemma run_checked_raised cmd s e w' :
  subprocess_run env cmd (world s) = (inl e, w') ->
  __run_cmd_raise_exception env cmd s =
  Res (inl e) {| self := self s; world := w' |} [Run cmd].
Proof.
  intros Hrun. unfold __run_cmd_raise_exception, bind.
  rewrite run_cmd_eq, Hrun. reflexivity.
Qed.

Lemma run_checked_issued cmd s :
  issued (__run_cmd_raise_exception env cmd s) = [Run cmd].
Proof.
  unfold __run_cmd_raise_exception, bind. rewrite run_cmd_eq. cbn.
  destruct (fst (subprocess_run env cmd (world s))) as [e|[[st o] e]];
    [reflexivity|].
  cbn. destruct (negb (st =? 0)); cbn; reflexivity.
Qed.

Lemma bind_issued {E A B} (m : M H E A) (f : A -> M H E B) s :
  exists rest, issued (bind m f s) = (issued (m s) ++ rest)%list.
Proof.
  unfold bind, preceded. destruct (outcome (m s)); cbn.
  - exists []. now rewrite app_nil_r.
  - eauto.
Qed.

(** The loop of lines 133-137 stops at the first line with the marker. *)
Lemma find_stub_line_eq lines s :
  find_stub_line lines s =
  match List.find (Py.contains "SMBus stub driver") lines with
  | None => Res (inr None) s []
  | Some line =>
      match Py.split_ws line with
      | [] => Res (inl IndexError) s []
      | i2c_bus :: _ =>
          match Py.int (Py.strip "i2c-" i2c_bus) with
          | None => Res (inl (ValueError (Py.strip "i2c-" i2c_bus))) s []
          | Some n =>
              Res (inr (Some i2c_bus))
                  {| self := set___real_bus (Some n) (self s); world := world s |} []
          end
      end
  end.
Proof.
  induction lines as [|line rest IH]; [reflexivity|].
  cbn [find_stub_line List.find].
  destruct (Py.contains "SMBus stub driver" line); [|exact IH].
  destruct (Py.split_ws line) as [|tok ?]; [reflexivity|].
  destruct (Py.int (Py.strip "i2c-" tok)); reflexivity.
Qed.

(** *** Alias creation, lines 144-151, by the entry found at the path *)

Lemma entry_with_fs w f p :
  entry (with_fs w f) p = if String.eqb p "" then None else f !! os.from_dir (cwd w) p.
Proof. reflexivity. Qed.

(** Nothing at the path: the link is created. *)
Lemma create_link_absent bus_link i2c_bus s :
  String.eqb bus_link "" = false ->
  entry (world s) bus_link = None ->
  create_link bus_link i2c_bus s =
  Res (inr tt)
      {| self := set___real_bus_path (Some ("/dev/" ++ i2c_bus)) (self s);
         world := with_fs (world s)
                    (<[os.from_dir (cwd (world s)) bus_link := Link ("/dev/" ++ i2c_bus)]>
                       (fs (world s))) |}
      [Symlink ("/dev/" ++ i2c_bus) bus_link].
Proof.
  intros Hne Hent.
  unfold create_link, bind, get_world, islink, symlink, emit, set_self,
    set_world, ret, raise.
  evaluate_with ltac:(first [rewrite Hent | rewrite Hne]). reflexivity.
Qed.

(** A link whose target does not exist: removed, then created anew. *)
Lemma create_link_dangling bus_link i2c_bus s target :
  entry (world s) bus_link = Some (Link target) ->
  path_exists (world s) target = false ->
  create_link bus_link i2c_bus s =
  Res (inr tt)
      {| self := set___real_bus_path (Some ("/dev/" ++ i2c_bus)) (self s);
         world := with_fs (world s)
                    (<[os.from_dir (cwd (world s)) bus_link := Link ("/dev/" ++ i2c_bus)]>
                       (delete (os.from_dir (cwd (world s)) bus_link) (fs (world s)))) |}
      [Unlink bus_link; Symlink ("/dev/" ++ i2c_bus) bus_link].
Proof.
  intros Hent Hex.
  assert (Hne : String.eqb bus_link "" = false).
  { unfold entry in Hent. destruct (String.eqb bus_link ""); [discriminate|reflexivity]. }
  unfold create_link, bind, get_world, islink, readlink, unlink, symlink,
    emit, set_self, set_world, ret, raise.
  evaluate_with ltac:(first [rewrite Hent | rewrite Hex | rewrite Hne
                             | rewrite entry_with_fs | rewrite lookup_delete_eq]).
  reflexivity.
Qed.

(** A link whose target exists: nothing is done to the file system. *)
Lemma create_link_valid bus_link i2c_bus s target :
  entry (world s) bus_link = Some (Link target) ->
  path_exists (world s) target = true ->
  create_link bus_link i2c_bus s =
  Res (inr tt)
      {| self := set___real_bus_path (Some ("/dev/" ++ i2c_bus)) (self s);
         world := world s |}
      [].
Proof.
  intros Hent Hex.
  unfold create_link, bind, get_world, islink, readlink, emit, set_self,
    set_world, ret, raise.
  evaluate_with ltac:(first [rewrite Hent | rewrite Hex]). reflexivity.
Qed.

(** Something that is no link: [os.symlink] refuses. *)
Lemma create_link_occupied bus_link i2c_bus s i :
  entry (world s) bus_link = Some i ->
  (forall t, i <> Link t) ->
  create_link bus_link i2c_bus s =
  Res (inl FileExistsError)
      {| self := set___real_bus_path (Some ("/dev/" ++ i2c_bus)) (self s);
         world := world s |}
      [Symlink ("/dev/" ++ i2c_bus) bus_link].
Proof.
  intros Hent Hno.
  assert (Hne : String.eqb bus_link "" = false).
  { unfold entry in Hent. destruct (String.eqb bus_link ""); [discriminate|reflexivity]. }
  unfold create_link, bind, get_world, islink, symlink, emit, set_self,
    set_world, ret, raise.
  destruct i as [t| |]; [destruct (Hno t); reflexivity| |];
    evaluate_with ltac:(first [rewrite Hent | rewrite Hne]); reflexivity.
Qed.

(** *** Discovery, lines 131-142 *)

Lemma symlink_i2c_stub_not_found s out err w4 :
  subprocess_run env "i2cdetect -l" (world s) = (inr (0, out, err), w4) ->
  stub_line out = None ->
  __symlink_i2c_stub env s =
  Res (inl (FakeI2cException "SMBus stub driver not found"))
      {| self := self s; world := w4 |} [Run "i2cdetect -l"].
Proof.
  intros Hrun Hnone. unfold __symlink_i2c_stub.
  erewrite bind_returns by (eapply run_checked_zero; exact Hrun).
  unfold bind. rewrite find_stub_line_eq. cbn [snd].
  unfold stub_line in Hnone. rewrite Hnone. reflexivity.
Qed.

Lemma symlink_i2c_stub_found s out err w4 tok n :
  subprocess_run env "i2cdetect -l" (world s) = (inr (0, out, err), w4) ->
  stub_token out = Some tok ->
  Py.int (Py.strip "i2c-" tok) = Some n ->
  __symlink_i2c_stub env s =
  let bus_link := "/dev/i2c-" ++ str_attr (__bus (self s)) in
  let r := create_link bus_link tok
             {| self := set___bus_link (Some bus_link)
                          (set___real_bus (Some n) (self s));
                world := w4 |} in
  Res (match outcome r with
       | inl e => inl (FakeI2cException ("Cannot create fake i2c symlink: " ++ repr e))
       | inr a => inr a
       end)
      (after r) (Run "i2cdetect -l" :: issued r).
Proof.
  intros Hrun Htok Hint. unfold __symlink_i2c_stub.
  erewrite bind_returns by (eapply run_checked_zero; exact Hrun).
  unfold bind at 1. rewrite find_stub_line_eq. cbn [snd].
  unfold stub_token, stub_line in Htok.
  destruct (find _ _) as [line|]; [|discriminate].
  destruct (Py.split_ws line) as [|tok' ?]; [discriminate|].
  cbn in Htok. injection Htok as ->. rewrite Hint.
  unfold bind, get_self, set_self, try_except, raise, preceded.
  cbn -[create_link].
  match goal with
  | |- context [create_link ?p ?t ?s0] =>
      destruct (create_link p t s0) as [[e|[]] s' ev]
  end; cbn; rewrite ?app_nil_r; reflexivity.
Qed.

(** *** [__add_fake_devices] and [open] once the modules are in *)

Lemma run_all_cons cmd rest w w' :
  run_all env (cmd :: rest) w = Some w' ->
  exists out err w1,
    subprocess_run env cmd w = (inr (0, out, err), w1) /\
    run_all env rest w1 = Some w'.
Proof.
  cbn. destruct (subprocess_run env cmd w) as [[e|[[status out] err]] w1];
    [discriminate|].
  destruct status; [|discriminate..]. intros Hrest. eauto.
Qed.

Lemma add_fake_devices_loaded l s w3 :
  run_all env (module_commands l) (world s) = Some w3 ->
  __add_fake_devices env (Some l) s =
  preceded (map Run (module_commands l))
    (__symlink_i2c_stub env {| self := self s; world := w3 |}).
Proof.
  intros Hall. unfold module_commands in Hall.
  apply run_all_cons in Hall as (o1 & e1 & w1 & H1 & Hall).
  apply run_all_cons in Hall as (o2 & e2 & w2 & H2 & Hall).
  apply run_all_cons in Hall as (o3 & e3 & w3' & H3 & Hall).
  cbn in Hall. injection Hall as ->.
  unfold __add_fake_devices.
  erewrite bind_returns by (eapply run_checked_zero; exact H1).
  erewrite bind_returns by (eapply run_checked_zero; exact H2).
  erewrite bind_returns by (eapply run_checked_zero; exact H3).
  unfold preceded. cbn. reflexivity.
Qed.

Lemma open_eq b dl s :
  open env b dl s =
  let r := __add_fake_devices env dl
             {| self := entered b dl (self s); world := world s |} in
  match outcome r with
  | inl e => Res (inl e) (after r) (issued r)
  | inr _ =>
      preceded (issued r)
        (super_open env (__real_bus (self (after r))) (after r))
  end.
Proof.
  unfold open, bind, set_self, get_self, entered, preceded. cbn.
  destruct (__add_fake_devices _ _ _) as [[e|[]] s' ev]; reflexivity.
Qed.

(** [open] from the enumeration on: the attributes discovery stores,
    then alias creation, then the transport. *)
Lemma open_at_alias b l s w3 out err w4 tok n :
  run_all env (module_commands l) (world s) = Some w3 ->
  subprocess_run env "i2cdetect -l" w3 = (inr (0, out, err), w4) ->
  stub_token out = Some tok ->
  Py.int (Py.strip "i2c-" tok) = Some n ->
  open env b (Some l) s =
  let bus_link := "/dev/i2c-" ++ Py.str b in
  let r := create_link bus_link tok
             {| self := set___bus_link (Some bus_link)
                          (set___real_bus (Some n) (entered b (Some l) (self s)));
                world := w4 |} in
  match outcome r with
  | inl e =>
      Res (inl (FakeI2cException ("Cannot create fake i2c symlink: " ++ repr e)))
          (after r) (map Run (open_commands l) ++ issued r)
  | inr _ =>
      preceded (map Run (open_commands l) ++ issued r)
        (super_open env (__real_bus (self (after r))) (after r))
  end.
Proof.
  intros Hall Hrun Htok Hint. rewrite open_eq. cbn zeta.
  rewrite (add_fake_devices_loaded l _ w3) by exact Hall.
  rewrite (symlink_i2c_stub_found _ out err w4 tok n) by assumption.
  cbn zeta. unfold preceded.
  cbn [outcome after issued self world __bus entered set___devices_list
       set___bus str_attr].
  match goal with
  | |- context [create_link ?p ?t ?s0] =>
      destruct (create_link p t s0) as [[e|[]] s' ev]
  end; cbn; reflexivity.
Qed.

(** A command of [open] that exits with another status than 0 ends
    [__add_fake_devices] there. *)
Lemma add_fake_devices_aborts l s (pre post : list string) cmd w1 status out err w2 :
  open_commands l = (pre ++ cmd :: post)%list ->
  run_all env pre (world s) = Some w1 ->
  subprocess_run env cmd w1 = (inr (status, out, err), w2) ->
  status <> 0 ->
  __add_fake_devices env (Some l) s =
  Res (inl (FakeI2cException (cannot_run cmd status err)))
      {| self := self s; world := w2 |} (map Run (pre ++ [cmd])%list).
Proof.
  intros Hcmds Hpre Hrun Hst. unfold open_commands in Hcmds.
  destruct pre as [|c1 [|c2 [|c3 [|c4 pre]]]]; cbn in Hcmds.
  - injection Hcmds as <- _. cbn in Hpre. injection Hpre as <-.
    unfold __add_fake_devices.
    erewrite bind_raises by (eapply run_checked_nonzero; eassumption).
    reflexivity.
  - injection Hcmds as <- <- _.
    apply run_all_cons in Hpre as (o1 & e1 & w & H1 & Hpre).
    cbn in Hpre. injection Hpre as ->.
    unfold __add_fake_devices.
    erewrite bind_returns by (eapply run_checked_zero; exact H1).
    erewrite bind_raises by (eapply run_checked_nonzero; eassumption).
    reflexivity.
  - injection Hcmds as <- <- <- _.
    apply run_all_cons in Hpre as (o1 & e1 & wa & H1 & Hpre).
    apply run_all_cons in Hpre as (o2 & e2 & wb & H2 & Hpre).
    cbn in Hpre. injection Hpre as ->.
    unfold __add_fake_devices.
    erewrite bind_returns by (eapply run_checked_zero; exact H1).
    erewrite bind_returns by (eapply run_checked_zero; exact H2).
    erewrite bind_raises by (eapply run_checked_nonzero; eassumption).
    reflexivity.
  - injection Hcmds as <- <- <- <- _.
    rewrite (add_fake_devices_loaded l s w1) by exact Hpre.
    unfold __symlink_i2c_stub.
    erewrite bind_raises by (eapply run_checked_nonzero; eassumption).
    reflexivity.
  - exfalso. apply (f_equal (@List.length string)) in Hcmds.
    rewrite !length_cons, length_app in Hcmds. cbn in Hcmds. lia.
Qed.

(** The whole of discovery, by what the enumeration shows. *)
Lemma symlink_i2c_stub_listed s out err w4 :
  subprocess_run env "i2cdetect -l" (world s) = (inr (0, out, err), w4) ->
  __symlink_i2c_stub env s =
  match stub_line out with
  | None =>
      Res (inl (FakeI2cException "SMBus stub driver not found"))
          {| self := self s; world := w4 |} [Run "i2cdetect -l"]
  | Some line =>
      match Py.split_ws line with
      | [] => Res (inl IndexError) {| self := self s; world := w4 |}
                  [Run "i2cdetect -l"]
      | tok :: _ =>
          match Py.int (Py.strip "i2c-" tok) with
          | None =>
              Res (inl (ValueError (Py.strip "i2c-" tok)))
                  {| self := self s; world := w4 |} [Run "i2cdetect -l"]
          | Some n =>
              let bus_link := "/dev/i2c-" ++ str_attr (__bus (self s)) in
              let r := create_link bus_link tok
                         {| self := set___bus_link (Some bus_link)
                                      (set___real_bus (Some n) (self s));
                            world := w4 |} in
              Res (match outcome r with
                   | inl e =>
                       inl (FakeI2cException
                              ("Cannot create fake i2c symlink: " ++ repr e))
                   | inr a => inr a
                   end)
                  (after r) (Run "i2cdetect -l" :: issued r)
          end
      end
  end.
Proof.
  intros Hrun.
  destruct (stub_line out) as [line|] eqn:Hline.
  - destruct (Py.split_ws line) as [|tok rest] eqn:Htoks.
    + unfold __symlink_i2c_stub.
      erewrite bind_returns by (eapply run_checked_zero; exact Hrun).
      unfold bind. rewrite find_stub_line_eq. cbn [snd].
      unfold stub_line in Hline. rewrite Hline, Htoks. reflexivity.
    + destruct (Py.int (Py.strip "i2c-" tok)) as [n|] eqn:Hint.
      * apply (symlink_i2c_stub_found s out err w4 tok n Hrun); [|exact Hint].
        unfold stub_token. rewrite Hline, Htoks. reflexivity.
      * unfold __symlink_i2c_stub.
        erewrite bind_returns by (eapply run_checked_zero; exact Hrun).
        unfold bind. rewrite find_stub_line_eq. cbn [snd].
        unfold stub_line in Hline. rewrite Hline, Htoks, Hint. reflexivity.
  - exact (symlink_i2c_stub_not_found s out err w4 Hrun Hline).
Qed.

(** *** The transport, after alias creation *)

Lemma super_open_eq n s :
  super_open env (Some n) s =
  match SMBus_open env n (world s) with
  | inl e => Res (inl e) s [TransportOpen n]
  | inr h =>
      Res (inr tt) {| self := self s; world := with_host (world s) h |}
          [TransportOpen n]
  end.
Proof.
  unfold super_open, bind, emit, get_world, set_world, raise, preceded. cbn.
  destruct (SMBus_open env n (world s)); destruct s; reflexivity.
Qed.

(** The transport touches neither the attributes nor the files. *)
Lemma super_open_frame n s :
  issued (super_open env (Some n) s) = [TransportOpen n]
  /\ self (after (super_open env (Some n) s)) = self s
  /\ fs (world (after (super_open env (Some n) s))) = fs (world s)
  /\ cwd (world (after (super_open env (Some n) s))) = cwd (world s).
Proof.
  rewrite super_open_eq. destruct (SMBus_open env n (world s)); now cbn.
Qed.

(** [open] by what alias creation finds at the path; the attributes are
    those of an instance on which [open] has stored everything. *)
Lemma open_alias_dangling b l s w3 out err w4 tok n target :
  run_all env (module_commands l) (world s) = Some w3 ->
  subprocess_run env "i2cdetect -l" w3 = (inr (0, out, err), w4) ->
  stub_token out = Some tok ->
  Py.int (Py.strip "i2c-" tok) = Some n ->
  entry w4 ("/dev/i2c-" ++ Py.str b) = Some (Link target) ->
  path_exists w4 target = false ->
  open env b (Some l) s =
  preceded
    (map Run (open_commands l)
     ++ [Unlink ("/dev/i2c-" ++ Py.str b);
         Symlink ("/dev/" ++ tok) ("/dev/i2c-" ++ Py.str b)])
    (super_open env (Some n)
       {| self := {| __bus := Some b; __real_bus := Some n;
                     __bus_link := Some ("/dev/i2c-" ++ Py.str b);
                     __real_bus_path := Some ("/dev/" ++ tok);
                     __devices_list := Some l |};
          world := with_fs w4
                     (<["/dev/i2c-" ++ Py.str b := Link ("/dev/" ++ tok)]>
                        (delete ("/dev/i2c-" ++ Py.str b) (fs w4))) |}).
Proof.
  intros Hall Hrun Htok Hint Hent Hex.
  rewrite (open_at_alias b l s w3 out err w4 tok n) by assumption.
  cbn zeta. erewrite create_link_dangling by eassumption. reflexivity.
Qed.

Lemma open_alias_valid b l s w3 out err w4 tok n target :
  run_all env (module_commands l) (world s) = Some w3 ->
  subprocess_run env "i2cdetect -l" w3 = (inr (0, out, err), w4) ->
  stub_token out = Some tok ->
  Py.int (Py.strip "i2c-" tok) = Some n ->
  entry w4 ("/dev/i2c-" ++ Py.str b) = Some (Link target) ->
  path_exists w4 target = true ->
  open env b (Some l) s =
  preceded
    (map Run (open_commands l))
    (super_open env (Some n)
       {| self := {| __bus := Some b; __real_bus := Some n;
                     __bus_link := Some ("/dev/i2c-" ++ Py.str b);
                     __real_bus_path := Some ("/dev/" ++ tok);
                     __devices_list := Some l |};
          world := w4 |}).
Proof.
  intros Hall Hrun Htok Hint Hent Hex.
  rewrite (open_at_alias b l s w3 out err w4 tok n) by assumption.
  cbn zeta. erewrite create_link_valid by eassumption.
  cbn [outcome after issued]. rewrite app_nil_r. reflexivity.
Qed.

Lemma open_alias_absent b l s w3 out err w4 tok n :
  run_all env (module_commands l) (world s) = Some w3 ->
  subprocess_run env "i2cdetect -l" w3 = (inr (0, out, err), w4) ->
  stub_token out = Some tok ->
  Py.int (Py.strip "i2c-" tok) = Some n ->
  entry w4 ("/dev/i2c-" ++ Py.str b) = None ->
  open env b (Some l) s =
  preceded
    (map Run (open_commands l)
     ++ [Symlink ("/dev/" ++ tok) ("/dev/i2c-" ++ Py.str b)])
    (super_open env (Some n)
       {| self := {| __bus := Some b; __real_bus := Some n;
                     __bus_link := Some ("/dev/i2c-" ++ Py.str b);
                     __real_bus_path := Some ("/dev/" ++ tok);
                     __devices_list := Some l |};
          world := with_fs w4
                     (<["/dev/i2c-" ++ Py.str b := Link ("/dev/" ++ tok)]>
                        (fs w4)) |}).
Proof.
  intros Hall Hrun Htok Hint Hent.
  rewrite (open_at_alias b l s w3 out err w4 tok n) by assumption.
  cbn zeta. erewrite create_link_absent by (reflexivity || eassumption).
  reflexivity.
Qed.

Lemma open_alias_occupied b l s w3 out err w4 tok n i :
  run_all env (module_commands l) (world s) = Some w3 ->
  subprocess_run env "i2cdetect -l" w3 = (inr (0, out, err), w4) ->
  stub_token out = Some tok ->
  Py.int (Py.strip "i2c-" tok) = Some n ->
  entry w4 ("/dev/i2c-" ++ Py.str b) = Some i ->
  (forall t, i <> Link t) ->
  outcome (open env b (Some l) s) =
  inl (FakeI2cException
         "Cannot create fake i2c symlink: FileExistsError(17, 'File exists')").
Proof.
  intros Hall Hrun Htok Hint Hent Hno.
  rewrite (open_at_alias b l s w3 out err w4 tok n) by assumption.
  cbn zeta. erewrite create_link_occupied by eassumption. reflexivity.
Qed.

Lemma open_aborts b l s (pre post : list string) cmd w1 status out err w2 :
  open_commands l = (pre ++ cmd :: post)%list ->
  run_all env pre (world s) = Some w1 ->
  subprocess_run env cmd w1 = (inr (status, out, err), w2) ->
  status <> 0 ->
  open env b (Some l) s =
  Res (inl (FakeI2cException (cannot_run cmd status err)))
      {| self := entered b (Some l) (self s); world := w2 |}
      (map Run (pre ++ [cmd])%list).
Proof.
  intros Hcmds Hpre Hrun Hst. rewrite open_eq. cbn zeta.
  erewrite add_fake_devices_aborts by eassumption.
  reflexivity.
Qed.

(** The load command is neither of the two commands before it. *)
Lemma load_stub_not_earlier l :
  load_stub l <> "modprobe i2c-dev" /\ load_stub l <> "modprobe -r i2c-stub".
Proof. unfold load_stub. split; simpl; discriminate. Qed.

(** Once the first two commands have exited with status 0, the load
    command is the third effect. *)
Lemma open_reaches_load b l s (out1 err1 out2 err2 : string) w1 w2 :
  subprocess_run env "modprobe i2c-dev" (world s) = (inr (0, out1, err1), w1) ->
  subprocess_run env "modprobe -r i2c-stub" w1 = (inr (0, out2, err2), w2) ->
  exists rest,
    issued (open env b (Some l) s) =
    Run "modprobe i2c-dev" :: Run "modprobe -r i2c-stub"
      :: Run (load_stub l) :: rest.
Proof.
  intros H1 H2. rewrite open_eq. cbn zeta. unfold __add_fake_devices.
  erewrite bind_returns by (eapply run_checked_zero; exact H1).
  erewrite bind_returns by (eapply run_checked_zero; exact H2).
  match goal with
  | |- context [bind ?m ?f ?s0] =>
      destruct (bind_issued m f s0) as [rest Hev];
      destruct (bind m f s0) as [o3 s3 ev3]
  end.
  rewrite run_checked_issued in Hev. cbn in Hev. subst ev3.
  unfold preceded. cbn. destruct o3 as [e|[]]; cbn; eauto.
Qed.

(** However [open] ends, it has issued the first command, or the first
    two, or the first three and then more. *)
Lemma open_issued_shape b l s :
  let ev := issued (open env b (Some l) s) in
  ev = [Run "modprobe i2c-dev"] \/
  ev = [Run "modprobe i2c-dev"; Run "modprobe -r i2c-stub"] \/
  exists rest,
    ev = Run "modprobe i2c-dev" :: Run "modprobe -r i2c-stub"
           :: Run (load_stub l) :: rest.
Proof.
  cbn zeta.
  destruct (subprocess_run env "modprobe i2c-dev" (world s))
    as [[e|[[st1 o1] e1]] w1] eqn:H1.
  { left. rewrite open_eq. cbn zeta. unfold __add_fake_devices.
    erewrite bind_raises by (eapply run_checked_raised; exact H1).
    reflexivity. }
  destruct (Z.eq_dec st1 0) as [->|Hst1].
  2:{ left. rewrite open_eq. cbn zeta. unfold __add_fake_devices.
      erewrite bind_raises by (eapply run_checked_nonzero; eassumption).
      reflexivity. }
  destruct (subprocess_run env "modprobe -r i2c-stub" w1)
    as [[e|[[st2 o2] e2]] w2] eqn:H2.
  { right; left. rewrite open_eq. cbn zeta. unfold __add_fake_devices.
    erewrite bind_returns by (eapply run_checked_zero; exact H1).
    erewrite bind_raises by (eapply run_checked_raised; exact H2).
    reflexivity. }
  destruct (Z.eq_dec st2 0) as [->|Hst2].
  2:{ right; left. rewrite open_eq. cbn zeta. unfold __add_fake_devices.
      erewrite bind_returns by (eapply run_checked_zero; exact H1).
      erewrite bind_raises by (eapply run_checked_nonzero; eassumption).
      reflexivity. }
  right; right. eapply open_reaches_load; eassumption.
Qed.

(** *** Teardown, lines 51-56 and 97-106 *)

Lemma del_fake_devices_eq s :
  __del_fake_devices env s =
  let unloaded := subprocess_run env "modprobe -r i2c-stub" (world s) in
  let w' := snd unloaded in
  match fst unloaded, __bus_link (self s) with
  | inr _, Some p =>
      match entry w' p with
      | Some (Link _) | Some File =>
          Res (inr tt)
              {| self := self s;
                 world := with_fs w' (delete (os.from_dir (cwd w') p) (fs w')) |}
              [Run "modprobe -r i2c-stub"; Unlink p]
      | Some Dir | None =>
          Res (inr tt) {| self := self s; world := w' |}
              [Run "modprobe -r i2c-stub"; Unlink p]
      end
  | _, _ =>
      Res (inr tt) {| self := self s; world := w' |} [Run "modprobe -r i2c-stub"]
  end.
Proof.
  unfold __del_fake_devices, __run_cmd, unlink_attr, unlink, try_except,
    bind, get_self, emit, get_world, set_world, ret, raise, preceded.
  cbn.
  destruct (subprocess_run env _ (world s)) as [[e|res] w']; cbn;
    [reflexivity|].
  destruct (__bus_link (self s)) as [p|]; [|reflexivity].
  cbn. destruct (entry w' p) as [[t| |]|]; reflexivity.
Qed.

Lemma close_eq s :
  close env s =
  match SMBus_close env (world s) with
  | inl e => Res (inl e) s [TransportClose]
  | inr h =>
      preceded [TransportClose]
        (__del_fake_devices env {| self := self s; world := with_host (world s) h |})
  end.
Proof.
  unfold close, super_close, bind, emit, get_world, set_world, raise, preceded.
  cbn -[__del_fake_devices].
  destruct (SMBus_close env (world s)) as [e|h]; cbn -[__del_fake_devices];
    [|reflexivity].
  destruct s; reflexivity.
Qed.

(** Whatever happens inside, [__del_fake_devices] returns and leaves the
    attributes alone. *)
Lemma del_fake_devices_quiet s :
  outcome (__del_fake_devices env s) = inr tt
  /\ self (after (__del_fake_devices env s)) = self s.
Proof.
  rewrite del_fake_devices_eq. cbn zeta.
  destruct (fst _) as [e|res]; [now cbn|].
  destruct (__bus_link (self s)) as [p|]; [|now cbn].
  destruct (entry _ p) as [[t| |]|]; now cbn.
Qed.

(** Once the unload command has run, nothing that [os.unlink] could
    remove is left at the alias path. *)
Lemma del_fake_devices_alias_gone s res w' p :
  subprocess_run env "modprobe -r i2c-stub" (world s) = (inr res, w') ->
  __bus_link (self s) = Some p ->
  entry (world (after (__del_fake_devices env s))) p = None
  \/ entry (world (after (__del_fake_devices env s))) p = Some Dir.
Proof.
  intros Hrun Hlink. rewrite del_fake_devices_eq. cbn zeta.
  rewrite Hrun, Hlink. cbn [fst snd].
  destruct (entry w' p) as [[t| |]|] eqn:Hent; cbn [after world]; auto.
  all: left; unfold entry in *; cbn [fs cwd with_fs];
    destruct (String.eqb p ""); [reflexivity|apply lookup_delete_eq].
Qed.

(** With nothing to remove at the alias path, [__del_fake_devices] leaves
    the host as the unload command left it. *)
Lemma del_fake_devices_nothing_left s :
  let w' := snd (subprocess_run env "modprobe -r i2c-stub" (world s)) in
  (forall p, __bus_link (self s) = Some p ->
             entry w' p = None \/ entry w' p = Some Dir) ->
  world (after (__del_fake_devices env s)) = w'.
Proof.
  cbn zeta. intros Hgone. rewrite del_fake_devices_eq. cbn zeta.
  destruct (fst _) as [e|res]; [reflexivity|].
  destruct (__bus_link (self s)) as [p|]; [|reflexivity].
  destruct (Hgone p eq_refl) as [-> | ->]; reflexivity.
Qed.

(** An absolute target is read from the root, whoever reads it. *)
Lemma link_target_exists_absolute w link target :
  os.absolute target = true ->
  link_target_exists w link target = path_exists w target.
Proof.
  intros Habs. unfold link_target_exists, path_exists, os.exists_from.
  rewrite Habs. reflexivity.
Qed.

End Equations.

(* ================================================================== *)
(** ** Facts about [hex] and [join] *)
(* ================================================================== *)

Module PyFacts.

Import Hexadecimal.

(** Reading the digits the printer wrote, after a positive prefix. *)
Lemma lower_hex_from_pos (d : uint) (acc : positive) :
  lower_hex_from (Z.pos acc) (HexadecimalString.NilEmpty.string_of_uint d) =
  Some (Z.pos (Pos.of_hex_uint_acc d acc)).
Proof.
  revert acc. induction d; intros acc;
    cbn [HexadecimalString.NilEmpty.string_of_uint lower_hex_from
         Pos.of_hex_uint_acc];
    [reflexivity|..];
    (rewrite <- IHd; cbn; do 2 f_equal; lia).
Qed.

(** The same from nothing: zeros in front count for nothing. *)
Lemma lower_hex_from_zero (d : uint) :
  lower_hex_from 0 (HexadecimalString.NilEmpty.string_of_uint d) =
  Some (Z.of_N (Pos.of_hex_uint d)).
Proof.
  induction d;
    cbn [HexadecimalString.NilEmpty.string_of_uint lower_hex_from
         Pos.of_hex_uint];
    [reflexivity|exact IHd|..];
    (cbn; rewrite <- lower_hex_from_pos; reflexivity).
Qed.

Lemma hex_digits_not_empty (n : N) : Py.hex_digits n <> "".
Proof.
  unfold Py.hex_digits. destruct n as [|p]; [discriminate|].
  cbn [N.to_hex_uint].
  pose proof (HexadecimalPos.Unsigned.to_uint_nonnil p) as Hnil.
  destruct (Pos.to_hex_uint p); [contradiction|discriminate..].
Qed.

(** [hex] writes digits that read back as the number. *)
Lemma lower_hex_value_hex_digits (n : N) :
  lower_hex_value (Py.hex_digits n) = Some (Z.of_N n).
Proof.
  pose proof (hex_digits_not_empty n) as Hne.
  unfold lower_hex_value. destruct (Py.hex_digits n) eqn:Hd; [contradiction|].
  rewrite <- Hd. unfold Py.hex_digits. rewrite lower_hex_from_zero.
  change (Pos.of_hex_uint (N.to_hex_uint n)) with (N.of_hex_uint (N.to_hex_uint n)).
  rewrite HexadecimalN.Unsigned.of_to. reflexivity.
Qed.

Lemma hex_lower_hex_of (a : Z) : 0 <= a -> lower_hex_of a (Py.hex a).
Proof.
  intros Ha. exists (Py.hex_digits (Z.to_N a)). split.
  - unfold Py.hex. destruct (Z.ltb_spec a 0); [lia|reflexivity].
  - rewrite lower_hex_value_hex_digits. f_equal. lia.
Qed.

(** No space in lowercase hexadecimal digits, nor in what is built of
    space-free pieces. *)
Lemma mem_app c (x y : string) : Py.mem c (x ++ y) = Py.mem c x || Py.mem c y.
Proof.
  induction x as [|d x IH]; [reflexivity|].
  change (Py.mem c (String d x ++ y))
    with (Ascii.eqb c d || Py.mem c (x ++ y)).
  rewrite IH. cbn [Py.mem]. now rewrite orb_assoc.
Qed.

Lemma lower_hex_from_no_space (t : string) : forall acc v,
  lower_hex_from acc t = Some v -> Py.mem " " t = false.
Proof.
  induction t as [|c t IH]; intros acc v Hv; [reflexivity|].
  cbn in Hv. cbn [Py.mem].
  destruct (Ascii.eqb_spec " " c) as [<-|_]; [discriminate|].
  destruct (lower_hex_digit c); [|discriminate].
  cbn. exact (IH _ _ Hv).
Qed.

Lemma lower_hex_of_no_space a t : lower_hex_of a t -> Py.mem " " t = false.
Proof.
  intros (ds & -> & Hv).
  assert (Hfrom : lower_hex_from 0 ds = Some a).
  { unfold lower_hex_value in Hv. destruct ds; [discriminate|exact Hv]. }
  rewrite mem_app, (lower_hex_from_no_space ds 0 a Hfrom). reflexivity.
Qed.

Lemma join_no_space (l : list Z) (pieces : list string) :
  Forall2 lower_hex_of l pieces -> Py.mem " " (Py.join "," pieces) = false.
Proof.
  induction 1 as [|a t l pieces Hat Hrest IH]; [reflexivity|].
  cbn [Py.join]. destruct pieces as [|t' pieces].
  - exact (lower_hex_of_no_space a t Hat).
  - rewrite !mem_app, (lower_hex_of_no_space a t Hat), IH. reflexivity.
Qed.

(** [hex] writes no zero in front of the digits. *)
Lemma nzhead_no_zero_in_front d u :
  Hexadecimal.nzhead d <> Hexadecimal.D0 u.
Proof.
  induction d; cbn; try discriminate. exact IHd.
Qed.

Lemma unorm_canonical d :
  Hexadecimal.unorm d = Hexadecimal.D0 Hexadecimal.Nil
  \/ (Hexadecimal.unorm d <> Hexadecimal.Nil
      /\ forall u, Hexadecimal.unorm d <> Hexadecimal.D0 u).
Proof.
  unfold Hexadecimal.unorm.
  pose proof (nzhead_no_zero_in_front d) as Hz.
  destruct (Hexadecimal.nzhead d); try (right; split; [discriminate|exact Hz]).
  now left.
Qed.

Lemma hex_digits_canonical n :
  Py.hex_digits n = "0" \/ String.prefix "0" (Py.hex_digits n) = false.
Proof.
  unfold Py.hex_digits.
  rewrite <- (HexadecimalN.Unsigned.of_to n) at 1 2.
  rewrite HexadecimalN.Unsigned.to_of.
  destruct (unorm_canonical (N.to_hex_uint n)) as [->|[Hnil Hz]];
    [now left|right].
  destruct (Hexadecimal.unorm (N.to_hex_uint n)) as [|u|u|u|u|u|u|u|u|u|u|u|u|u|u|u|u];
    try reflexivity.
  now contradiction (Hz u).
Qed.

Lemma hex_hex_literal_of a : 0 <= a -> hex_literal_of a (Py.hex a).
Proof.
  intros Ha. exists (Py.hex_digits (Z.to_N a)). split; [|split].
  - unfold Py.hex. destruct (Z.ltb_spec a 0); [lia|reflexivity].
  - rewrite lower_hex_value_hex_digits. f_equal. lia.
  - apply hex_digits_canonical.
Qed.

(** [','.join] writes the pieces comma-separated. *)
Lemma join_comma_separated pieces :
  comma_separated pieces (Py.join "," pieces).
Proof.
  induction pieces as [|p [|q rest] IH].
  - constructor.
  - constructor.
  - change (Py.join "," (p :: q :: rest))
      with (p ++ "," ++ Py.join "," (q :: rest)).
    constructor. exact IH.
Qed.

(** The text of comma-separated pieces is the one text there is. *)
Lemma comma_separated_one_text pieces t t' :
  comma_separated pieces t -> comma_separated pieces t' -> t = t'.
Proof.
  intros Ht. revert t'.
  induction Ht as [|p|p q rest t _ IH]; intros t' Ht'; inversion Ht'; subst;
    try reflexivity.
  f_equal. f_equal. now apply IH.
Qed.

End PyFacts.

(* ================================================================== *)
(** ** The claims *)
(* ================================================================== *)

Section Claims.

Context {H : Type} (env : Env H).

Implicit Types (s : state H) (w : World H) (l : list Z).


(** C4, as the code has it. The forced unload of i2c-stub comes before
    the load: whenever [open] issues the load command, it has issued the
    unload command earlier.  The status of the unload is not ignored:
    when it is 0 the load command, with the addresses asked for, comes
    next; when it is anything else [open] raises [FakeI2cException] for
    the unload command and the load command is never issued. *)
Theorem C4_unload_checked_before_load b l s :
  (forall pre post : list event,
      issued (open env b (Some l) s) = (pre ++ Run (load_stub l) :: post)%list ->
      In (Run "modprobe -r i2c-stub") pre)
  /\
  (forall o1 e1 w1 status out err w2,
      subprocess_run env "modprobe i2c-dev" (world s) = (inr (0, o1, e1), w1) ->
      subprocess_run env "modprobe -r i2c-stub" w1 = (inr (status, out, err), w2) ->
      if status =? 0
      then exists rest,
             issued (open env b (Some l) s) =
             Run "modprobe i2c-dev" :: Run "modprobe -r i2c-stub"
               :: Run (load_stub l) :: rest
      else open env b (Some l) s =
           Res (inl (FakeI2cException
                       (cannot_run "modprobe -r i2c-stub" status err)))
               {| self := entered b (Some l) (self s); world := w2 |}
               [Run "modprobe i2c-dev"; Run "modprobe -r i2c-stub"]).
Proof.
  split.
  - intros pre post Hev.
    destruct (load_stub_not_earlier l) as [Hne1 Hne2].
    destruct (open_issued_shape env b l s) as [Hs|[Hs|[rest Hs]]];
      cbn zeta in Hs; rewrite Hs in Hev; clear Hs.
    + destruct pre as [|? [|? ?]]; cbn in Hev; congruence.
    + destruct pre as [|? [|? [|? ?]]]; cbn in Hev; congruence.
    + destruct pre as [|x [|y pre]]; cbn in Hev; [congruence..|].
      injection Hev as Hx Hy _. subst x y. right; now left.
  - intros o1 e1 w1 status out err w2 H1 H2.
    destruct (Z.eqb_spec status 0) as [->|Hst].
    + eapply open_reaches_load; eassumption.
    + apply (open_aborts env b l s ["modprobe i2c-dev"]
               ["modprobe i2c-stub chip_addr=" ++ Py.join "," (map Py.hex l);
                "i2cdetect -l"]
               "modprobe -r i2c-stub" w1 status out err w2);
        [reflexivity| |exact H2|exact Hst].
      cbn. rewrite H1. reflexivity.
Qed.

(** C2. When the three module commands and the enumeration exit with
    status 0 and no line of the enumeration carries the marker, [open]
    raises [FakeI2cException] with the message of line 140.  That
    message ends in the words the specification quotes and is none of
    the messages a failed command gives.  The effects issued are the four
    commands: no link is removed or created, and the host is as the
    enumeration left it. *)
Theorem C2_stub_driver_not_found b l s w3 out err w4 :
  run_all env (module_commands l) (world s) = Some w3 ->
  subprocess_run env "i2cdetect -l" w3 = (inr (0, out, err), w4) ->
  (forall line, In line (Py.split "010" out) ->
                Py.contains "SMBus stub driver" line = false) ->
  open env b (Some l) s =
  Res (inl (FakeI2cException "SMBus stub driver not found"))
      {| self := entered b (Some l) (self s); world := w4 |}
      (map Run (open_commands l))
  /\ "SMBus stub driver not found" = "SMBus " ++ "stub driver not found"
  /\ forall cmd status stderr,
       cannot_run cmd status stderr <> "SMBus stub driver not found".
Proof.
  intros Hall Hrun Hnone. split; [|split; [reflexivity|]].
  - rewrite open_eq. cbn zeta.
    rewrite (add_fake_devices_loaded env l _ w3) by exact Hall.
    erewrite symlink_i2c_stub_not_found; [reflexivity|exact Hrun|].
    unfold stub_line. induction (Py.split "010" out) as [|x xs IH];
      [reflexivity|].
    cbn. rewrite (Hnone x) by now left.
    apply IH. intros line Hin. apply Hnone. now right.
  - intros cmd status stderr. unfold cannot_run. simpl. discriminate.
Qed.

(** C5. For a list of addresses (integers from 0 up), the load command
    is [modprobe i2c-stub] and a parameter that is exactly [chip_addr=]
    followed by a text of comma-separated pieces, one piece per address
    in the order of the list; each piece is the lowercase hexadecimal
    literal of its address: [0x] and the digits, no zero in front; the
    parameter holds no space. *)
Theorem C5_chip_addr_parameter l :
  Forall (fun a => 0 <= a) l ->
  exists (pieces : list string) (text : string),
    load_stub l = "modprobe i2c-stub " ++ ("chip_addr=" ++ text)
    /\ comma_separated pieces text
    /\ Forall2 hex_literal_of l pieces
    /\ Py.mem " " ("chip_addr=" ++ text) = false.
Proof.
  intros Hl. exists (map Py.hex l), (Py.join "," (map Py.hex l)).
  assert (Hpieces : Forall2 lower_hex_of l (map Py.hex l)).
  { induction Hl as [|a l Ha _ IH]; constructor;
      [exact (PyFacts.hex_lower_hex_of a Ha)|exact IH]. }
  split; [reflexivity|].
  split; [apply PyFacts.join_comma_separated|].
  split.
  - induction Hl as [|a l Ha _ IH]; constructor;
      [exact (PyFacts.hex_hex_literal_of a Ha)|].
    apply IH. now inversion Hpieces.
  - rewrite PyFacts.mem_app, (PyFacts.join_no_space l _ Hpieces). reflexivity.
Qed.

(** C10. The empty list of addresses is taken as any other: the load
    command is issued with the bare parameter [chip_addr=], and when the
    commands exit with status 0, the enumeration names the stub, the
    alias path is free and the transport opens, [open] returns with
    every attribute stored and the alias created. *)
Theorem C10_empty_address_list b s w3 out err w4 tok n h :
  run_all env ["modprobe i2c-dev"; "modprobe -r i2c-stub";
               "modprobe i2c-stub chip_addr="] (world s) = Some w3 ->
  subprocess_run env "i2cdetect -l" w3 = (inr (0, out, err), w4) ->
  stub_token out = Some tok ->
  Py.int (Py.strip "i2c-" tok) = Some n ->
  entry w4 ("/dev/i2c-" ++ Py.str b) = None ->
  SMBus_open env n
    (with_fs w4 (<["/dev/i2c-" ++ Py.str b := Link ("/dev/" ++ tok)]> (fs w4)))
    = inr h ->
  load_stub [] = "modprobe i2c-stub chip_addr="
  /\ open env b (Some []) s =
     Res (inr tt)
         {| self := {| __bus := Some b; __real_bus := Some n;
                       __bus_link := Some ("/dev/i2c-" ++ Py.str b);
                       __real_bus_path := Some ("/dev/" ++ tok);
                       __devices_list := Some [] |};
            world :=
              with_host
                (with_fs w4
                   (<["/dev/i2c-" ++ Py.str b := Link ("/dev/" ++ tok)]> (fs w4)))
                h |}
         [Run "modprobe i2c-dev"; Run "modprobe -r i2c-stub";
          Run "modprobe i2c-stub chip_addr="; Run "i2cdetect -l";
          Symlink ("/dev/" ++ tok) ("/dev/i2c-" ++ Py.str b);
          TransportOpen n].
Proof.
  intros Hall Hrun Htok Hint Hent Hopen. split; [reflexivity|].
  rewrite (open_alias_absent env b [] s w3 out err w4 tok n)
    by assumption.
  rewrite super_open_eq. cbn [world]. rewrite Hopen. reflexivity.
Qed.

(** C9, as the code has it. After an [open] that returned, [bus_path]
    is [/dev/i2c-] and the decimal writing of the bus asked for,
    [real_bus_path] is [/dev/] and the first token of the stub's line,
    and the alias path holds a symbolic link.  The link points at
    [real_bus_path] when the alias path was free when alias creation was
    reached, and when it held a link with an absolute target that did
    not exist; when it held a link with an absolute target that existed,
    that link is still there. *)
Theorem C9_alias_after_open b l s w3 out err w4 :
  run_all env (module_commands l) (world s) = Some w3 ->
  subprocess_run env "i2cdetect -l" w3 = (inr (0, out, err), w4) ->
  outcome (open env b (Some l) s) = inr tt ->
  let r := open env b (Some l) s in
  let alias := "/dev/i2c-" ++ Py.str b in
  bus_path (self (after r)) = alias
  /\ exists tok,
       stub_token out = Some tok
       /\ real_bus_path (self (after r)) = "/dev/" ++ tok
       /\ (exists t, entry (world (after r)) alias = Some (Link t))
       /\ (entry w4 alias = None ->
           entry (world (after r)) alias = Some (Link ("/dev/" ++ tok)))
       /\ (forall target,
             entry w4 alias = Some (Link target) ->
             os.absolute target = true ->
             entry (world (after r)) alias =
               Some (Link (if link_target_exists w4 alias target
                           then target else "/dev/" ++ tok))).
Proof.
  intros Hall Hrun Hok. cbn zeta.
  destruct (stub_token out) as [tok|] eqn:Htok.
  2:{ exfalso. revert Hok. rewrite open_eq. cbn zeta.
      rewrite (add_fake_devices_loaded env l _ w3) by exact Hall.
      rewrite (symlink_i2c_stub_listed env _ out err w4) by exact Hrun.
      unfold stub_token in Htok.
      destruct (stub_line out) as [line|]; [|discriminate].
      destruct (Py.split_ws line); [discriminate|discriminate Htok]. }
  destruct (Py.int (Py.strip "i2c-" tok)) as [n|] eqn:Hint.
  2:{ exfalso. revert Hok. rewrite open_eq. cbn zeta.
      rewrite (add_fake_devices_loaded env l _ w3) by exact Hall.
      rewrite (symlink_i2c_stub_listed env _ out err w4) by exact Hrun.
      unfold stub_token in Htok.
      destruct (stub_line out) as [line|]; [|discriminate].
      destruct (Py.split_ws line) as [|tok' ?]; [discriminate|].
      cbn in Htok. injection Htok as ->. rewrite Hint. discriminate. }
  destruct (entry w4 ("/dev/i2c-" ++ Py.str b)) as [i|] eqn:Hent.
  - destruct i as [target| |].
    + destruct (path_exists w4 target) eqn:Hex.
      * rewrite (open_alias_valid env b l s w3 out err w4 tok n target)
          by assumption.
        match goal with
        | |- context [super_open env (Some n) ?s0] =>
            destruct (super_open_frame env n s0) as (_ & Hself & Hfs & Hcwd)
        end.
        unfold preceded. cbn [after]. rewrite Hself.
        split; [reflexivity|]. exists tok.
        split; [reflexivity|]. split; [reflexivity|].
        assert (Hafter : entry (world (super_open env (Some n)
                  {| self := {| __bus := Some b; __real_bus := Some n;
                                __bus_link := Some ("/dev/i2c-" ++ Py.str b);
                                __real_bus_path := Some ("/dev/" ++ tok);
                                __devices_list := Some l |};
                     world := w4 |}).(after)) ("/dev/i2c-" ++ Py.str b)
                = Some (Link target)).
        { unfold entry in *. rewrite Hfs, Hcwd. exact Hent. }
        split; [now exists target|]. split; [discriminate|].
        intros target' Heq Habs. injection Heq as <-.
        rewrite (link_target_exists_absolute w4 _ target Habs), Hex.
        exact Hafter.
      * rewrite (open_alias_dangling env b l s w3 out err w4 tok n target)
          by assumption.
        match goal with
        | |- context [super_open env (Some n) ?s0] =>
            destruct (super_open_frame env n s0) as (_ & Hself & Hfs & Hcwd)
        end.
        unfold preceded. cbn [after]. rewrite Hself.
        split; [reflexivity|]. exists tok.
        split; [reflexivity|]. split; [reflexivity|].
        assert (Hafter : entry (world (super_open env (Some n)
                  {| self := {| __bus := Some b; __real_bus := Some n;
                                __bus_link := Some ("/dev/i2c-" ++ Py.str b);
                                __real_bus_path := Some ("/dev/" ++ tok);
                                __devices_list := Some l |};
                     world := with_fs w4
                                (<["/dev/i2c-" ++ Py.str b := Link ("/dev/" ++ tok)]>
                                   (delete ("/dev/i2c-" ++ Py.str b) (fs w4))) |}).(after))
                  ("/dev/i2c-" ++ Py.str b)
                = Some (Link ("/dev/" ++ tok))).
        { unfold entry. rewrite Hfs, Hcwd. cbn [fs cwd with_fs].
          apply lookup_insert_eq. }
        split; [now exists ("/dev/" ++ tok)|]. split; [discriminate|].
        intros target' Heq Habs. injection Heq as <-.
        rewrite (link_target_exists_absolute w4 _ target Habs), Hex.
        exact Hafter.
    + exfalso.
      rewrite (open_alias_occupied env b l s w3 out err w4 tok n File) in Hok
        by (assumption || discriminate).
      discriminate Hok.
    + exfalso.
      rewrite (open_alias_occupied env b l s w3 out err w4 tok n Dir) in Hok
        by (assumption || discriminate).
      discriminate Hok.
  - rewrite (open_alias_absent env b l s w3 out err w4 tok n) by assumption.
    match goal with
    | |- context [super_open env (Some n) ?s0] =>
        destruct (super_open_frame env n s0) as (_ & Hself & Hfs & Hcwd)
    end.
    unfold preceded. cbn [after]. rewrite Hself.
    split; [reflexivity|]. exists tok.
    split; [reflexivity|]. split; [reflexivity|].
    assert (Hafter : entry (world (super_open env (Some n)
              {| self := {| __bus := Some b; __real_bus := Some n;
                            __bus_link := Some ("/dev/i2c-" ++ Py.str b);
                            __real_bus_path := Some ("/dev/" ++ tok);
                            __devices_list := Some l |};
                 world := with_fs w4
                            (<["/dev/i2c-" ++ Py.str b := Link ("/dev/" ++ tok)]>
                               (fs w4)) |}).(after))
              ("/dev/i2c-" ++ Py.str b)
            = Some (Link ("/dev/" ++ tok))).
    { unfold entry. rewrite Hfs, Hcwd. cbn [fs cwd with_fs].
      apply lookup_insert_eq. }
    split; [now exists ("/dev/" ++ tok)|]. split; [intros _; exact Hafter|].
    discriminate.
Qed.

(** C3, as the code has it. [close] raises only what the [close] of the
    base class raises.  When that returns, [close] returns whatever the
    unload command and the removal of the alias do, on any instance,
    opened or not, and leaves the attributes as they were; a second
    [close] returns as well.  The second call issues the unload command
    again and removes nothing: when the first call got as far as the
    removal and the second unload leaves the alias path as it found it,
    the host after the second call is the host after that command. *)
Theorem C3_close_swallows_own_failures s h1 :
  SMBus_close env (world s) = inr h1 ->
  let unload := "modprobe -r i2c-stub" in
  let r1 := close env s in
  outcome r1 = inr tt
  /\ self (after r1) = self s
  /\ forall h2,
       SMBus_close env (world (after r1)) = inr h2 ->
       let r2 := close env (after r1) in
       let w2 := snd (subprocess_run env unload
                        (with_host (world (after r1)) h2)) in
       outcome r2 = inr tt
       /\ self (after r2) = self s
       /\ ((forall e, fst (subprocess_run env unload (with_host (world s) h1))
                       <> inl e) ->
           (forall p, __bus_link (self s) = Some p ->
                      entry w2 p = entry (world (after r1)) p) ->
           world (after r2) = w2).
Proof.
  intros Hc1. cbn zeta.
  rewrite (close_eq env s), Hc1. unfold preceded. cbn [outcome after issued].
  set (s1 := {| self := self s; world := with_host (world s) h1 |}).
  destruct (del_fake_devices_quiet env s1) as [Hout1 Hself1].
  split; [exact Hout1|]. split; [exact Hself1|].
  intros h2 Hc2.
  rewrite (close_eq env (after (__del_fake_devices env s1))), Hc2.
  unfold preceded. cbn [outcome after issued].
  set (s2 := {| self := self (after (__del_fake_devices env s1));
                world := with_host (world (after (__del_fake_devices env s1))) h2 |}).
  destruct (del_fake_devices_quiet env s2) as [Hout2 Hself2].
  split; [exact Hout2|]. split; [now rewrite Hself2|].
  intros Hran Hkept.
  apply (del_fake_devices_nothing_left env s2). cbn zeta.
  intros p Hlink. subst s2. cbn [self world] in *.
  rewrite Hself1 in Hlink. cbn [self] in Hlink.
  rewrite (Hkept p Hlink).
  destruct (subprocess_run env "modprobe -r i2c-stub" (with_host (world s) h1))
    as [[e|res] w'] eqn:Hrun; [destruct (Hran e); reflexivity|].
  exact (del_fake_devices_alias_gone env s1 res w' p Hrun Hlink).
Qed.

End Claims.


(** C4 on the demonstration host with a clean unload: the unload is
    the second effect, the load the third. *)
Lemma C4_witness :
  In (Run "modprobe -r i2c-stub")
     [Run "modprobe i2c-dev"; Run "modprobe -r i2c-stub"]
  /\ exists rest,
       issued (open (Demo.env Demo.listing_7 "/dev/i2c-7" 0) 3 (Some [28])
                 (Demo.boot ∅)) =
       Run "modprobe i2c-dev" :: Run "modprobe -r i2c-stub"
         :: Run "modprobe i2c-stub chip_addr=0x1c" :: rest.
Proof.
  pose proof (C4_unload_checked_before_load
                (Demo.env Demo.listing_7 "/dev/i2c-7" 0) 3 [28] (Demo.boot ∅))
    as [Horder Hchecked].
  split.
  - apply (Horder [Run "modprobe i2c-dev"; Run "modprobe -r i2c-stub"]
             [Run "i2cdetect -l"; Symlink "/dev/i2c-7" "/dev/i2c-3";
              TransportOpen 7]).
    reflexivity.
  - eapply (Hchecked "" "" _ 0 "" ""); reflexivity.
Defined.

(** The unload fails (the module is in use): [open] raises and the stub
    is not loaded, whereas C4 as written has [open] go on to the load. *)
Lemma C4_counterexample :
  let env := Demo.env Demo.listing_7 "/dev/i2c-7" 1 in
  let r := open env 3 (Some [28]) (Demo.boot ∅) in
  fst (subprocess_run env "modprobe -r i2c-stub" (world (Demo.boot ∅))) =
    inr (1, "", "modprobe: FATAL: Module i2c_stub is in use.")
  /\ outcome r =
       inl (FakeI2cException
              "Cannot run command 'modprobe -r i2c-stub'. Shell returns: [1] - modprobe: FATAL: Module i2c_stub is in use.")
  /\ ~ In (Run (load_stub [28])) (issued r).
Proof.
  cbn zeta. split; [reflexivity|]. split; [reflexivity|].
  vm_compute. intros [Hin|[Hin|[]]]; discriminate Hin.
Qed.

(** C2 on the demonstration host when the enumeration shows no stub. *)
Lemma C2_witness :
  let r := open (Demo.env Demo.listing_none "/dev/i2c-7" 0) 3 (Some [28])
             (Demo.boot ∅) in
  outcome r = inl (FakeI2cException "SMBus stub driver not found")
  /\ issued r = [Run "modprobe i2c-dev"; Run "modprobe -r i2c-stub";
                 Run "modprobe i2c-stub chip_addr=0x1c"; Run "i2cdetect -l"]
  /\ fs (world (after r)) !! "/dev/i2c-3" = None
  /\ __bus_link (self (after r)) = None.
Proof.
  cbn zeta.
  edestruct (C2_stub_driver_not_found
               (Demo.env Demo.listing_none "/dev/i2c-7" 0) 3 [28] (Demo.boot ∅))
    as [Heq _].
  - reflexivity.
  - reflexivity.
  - intros line Hin. vm_compute in Hin.
    destruct Hin as [<-|[<-|[]]]; reflexivity.
  - rewrite Heq. repeat split.
Defined.

(** C5 on the addresses 0x20 and 0x50. *)
Lemma C5_witness :
  load_stub [32; 80] = "modprobe i2c-stub chip_addr=0x20,0x50"
  /\ exists (pieces : list string) (text : string),
       load_stub [32; 80] = "modprobe i2c-stub " ++ ("chip_addr=" ++ text)
       /\ comma_separated pieces text
       /\ Forall2 hex_literal_of [32; 80] pieces
       /\ Py.mem " " ("chip_addr=" ++ text) = false.
Proof.
  split; [reflexivity|].
  apply (C5_chip_addr_parameter [32; 80]).
  repeat constructor; lia.
Defined.

(** C6, where the code departs from it. [/dev/i2c-3] is a link to
    [i2c-9], left over from a run that had the stub on bus 9; the
    process runs in [/root/], where a file named [i2c-9] lies.  When
    [open(3, [0x1c])] reaches alias creation, the link is there and its
    target, [/dev/i2c-9], does not exist.  [open] neither removes the
    link nor creates one: line 145 gives [os.path.exists] the text of
    the link, which is looked up in the working directory.  [open]
    returns with the alias still dangling. *)
Theorem C6_dangling_relative_link_kept :
  let env := Demo.env Demo.listing_7 "/dev/i2c-7" 0 in
  let s := Demo.boot {[ "/dev/i2c-3" := Link "i2c-9"; "/root/i2c-9" := File ]} in
  let r := open env 3 (Some [28]) s in
  exists w4,
    run_all env (open_commands [28]) (world s) = Some w4
    /\ entry w4 "/dev/i2c-3" = Some (Link "i2c-9")
    /\ link_target_exists w4 "/dev/i2c-3" "i2c-9" = false
    /\ path_exists w4 "/dev/i2c-3" = false
    /\ path_exists w4 "i2c-9" = true
    /\ outcome r = inr tt
    /\ issued r =
         [Run "modprobe i2c-dev"; Run "modprobe -r i2c-stub";
          Run "modprobe i2c-stub chip_addr=0x1c"; Run "i2cdetect -l";
          TransportOpen 7]
    /\ real_bus_path (self (after r)) = "/dev/i2c-7"
    /\ entry (world (after r)) "/dev/i2c-3" = Some (Link "i2c-9")
    /\ path_exists (world (after r)) "/dev/i2c-3" = false.
Proof.
  cbn zeta. eexists. split; [reflexivity|].
  repeat split; vm_compute; reflexivity.
Qed.

(** C7, where the code departs from it. [/dev/i2c-3] is a link to
    [i2c-0], the real bus 0 next to it in [/dev]; the process runs in
    [/root/].  When [open(3, [0x1c])] reaches alias creation, the link
    is there and its target, [/dev/i2c-0], exists.  [open] removes the
    link and creates one to the stub: line 145 gives [os.path.exists]
    the text of the link, which is looked up in the working directory,
    where there is no [i2c-0]. *)
Theorem C7_valid_relative_link_replaced :
  let env := Demo.env Demo.listing_7 "/dev/i2c-7" 0 in
  let s := Demo.boot {[ "/dev/i2c-3" := Link "i2c-0"; "/dev/i2c-0" := File ]} in
  let r := open env 3 (Some [28]) s in
  exists w4,
    run_all env (open_commands [28]) (world s) = Some w4
    /\ entry w4 "/dev/i2c-3" = Some (Link "i2c-0")
    /\ link_target_exists w4 "/dev/i2c-3" "i2c-0" = true
    /\ path_exists w4 "/dev/i2c-3" = true
    /\ path_exists w4 "i2c-0" = false
    /\ outcome r = inr tt
    /\ issued r =
         [Run "modprobe i2c-dev"; Run "modprobe -r i2c-stub";
          Run "modprobe i2c-stub chip_addr=0x1c"; Run "i2cdetect -l";
          Unlink "/dev/i2c-3"; Symlink "/dev/i2c-7" "/dev/i2c-3";
          TransportOpen 7]
    /\ entry (world (after r)) "/dev/i2c-3" = Some (Link "/dev/i2c-7").
Proof.
  cbn zeta. eexists. split; [reflexivity|].
  repeat split; vm_compute; reflexivity.
Qed.

(** C10 on the demonstration host. *)
Lemma C10_witness :
  let r := open (Demo.env Demo.listing_7 "/dev/i2c-7" 0) 3 (Some [])
             (Demo.boot ∅) in
  outcome r = inr tt
  /\ issued r =
       [Run "modprobe i2c-dev"; Run "modprobe -r i2c-stub";
        Run "modprobe i2c-stub chip_addr="; Run "i2cdetect -l";
        Symlink "/dev/i2c-7" "/dev/i2c-3"; TransportOpen 7]
  /\ entry (world (after r)) "/dev/i2c-3" = Some (Link "/dev/i2c-7").
Proof.
  cbn zeta.
  edestruct (C10_empty_address_list
               (Demo.env Demo.listing_7 "/dev/i2c-7" 0) 3 (Demo.boot ∅))
    as (_ & Heq).
  - reflexivity.
  - reflexivity.
  - reflexivity.
  - reflexivity.
  - reflexivity.
  - reflexivity.
  - rewrite Heq. repeat split.
Defined.

(** C9 on the scenario of the specification: bus 3, the stub on bus 7,
    nothing at [/dev/i2c-3] beforehand. *)
Lemma C9_witness :
  let r := open (Demo.env Demo.listing_7 "/dev/i2c-7" 0) 3 (Some [28])
             (Demo.boot ∅) in
  bus_path (self (after r)) = "/dev/i2c-3"
  /\ real_bus_path (self (after r)) = "/dev/i2c-7"
  /\ entry (world (after r)) "/dev/i2c-3" = Some (Link "/dev/i2c-7").
Proof.
  cbn zeta.
  edestruct (C9_alias_after_open
               (Demo.env Demo.listing_7 "/dev/i2c-7" 0) 3 [28] (Demo.boot ∅))
    as (Hpath & tok & Htok & Hreal & _ & Hfree & _).
  - reflexivity.
  - reflexivity.
  - reflexivity.
  - injection Htok as <-.
    split; [exact Hpath|]. split; [exact Hreal|].
    apply Hfree. reflexivity.
Defined.

(** [/dev/i2c-5] is a valid link to the real bus 1 when [open(5, ...)] is
    called and the stub comes up on bus 7: [open] returns, and the alias
    does not point at the real bus path, against C9 as written. *)
Lemma C9_counterexample :
  let r := open (Demo.env Demo.listing_7 "/dev/i2c-7" 0) 5 (Some [48])
             (Demo.boot {[ "/dev/i2c-5" := Link "/dev/i2c-1";
                           "/dev/i2c-1" := File ]}) in
  outcome r = inr tt
  /\ bus_path (self (after r)) = "/dev/i2c-5"
  /\ real_bus_path (self (after r)) = "/dev/i2c-7"
  /\ entry (world (after r)) (bus_path (self (after r))) =
       Some (Link "/dev/i2c-1")
  /\ entry (world (after r)) (bus_path (self (after r))) <>
       Some (Link (real_bus_path (self (after r)))).
Proof.
  cbn zeta. repeat split; try reflexivity.
  vm_compute. discriminate.
Qed.

(** C3 on the demonstration host: two calls of [close] after an [open]
    that returned.  The first removes the alias, the second changes
    nothing. *)
Lemma C3_witness :
  let env := Demo.env Demo.listing_7 "/dev/i2c-7" 0 in
  let s := after (open env 3 (Some [28]) (Demo.boot ∅)) in
  let r1 := close env s in
  let r2 := close env (after r1) in
  entry (world s) "/dev/i2c-3" = Some (Link "/dev/i2c-7")
  /\ outcome r1 = inr tt
  /\ entry (world (after r1)) "/dev/i2c-3" = None
  /\ outcome r2 = inr tt
  /\ world (after r2) = world (after r1).
Proof.
  cbn zeta.
  set (env := Demo.env Demo.listing_7 "/dev/i2c-7" 0).
  set (s := after (open env 3 (Some [28]) (Demo.boot ∅))).
  edestruct (C3_close_swallows_own_failures env s) as (Hout1 & _ & Hsecond).
  { reflexivity. }
  edestruct Hsecond as (Hout2 & _ & Hnoop).
  { reflexivity. }
  split; [reflexivity|]. split; [exact Hout1|]. split; [reflexivity|].
  split; [exact Hout2|].
  rewrite Hnoop; [reflexivity|discriminate|].
  intros p Hp.
  assert (Hlink : Some p = Some "/dev/i2c-3") by (rewrite <- Hp; reflexivity).
  injection Hlink as ->. reflexivity.
Defined.

(** After an [open] that returned, the descriptor of the transport is
    closed elsewhere: [close] raises what the base class raises, before
    the unload and the removal of the alias, against C3 as written. *)
Lemma C3_counterexample :
  let env := Demo.env Demo.listing_7 "/dev/i2c-7" 0 in
  let s := Demo.descriptor_closed_elsewhere
             (after (open env 3 (Some [28]) (Demo.boot ∅))) in
  outcome (close env s) = inl (External "OSError(9, 'Bad file descriptor')")
  /\ issued (close env s) = [TransportClose]
  /\ entry (world (after (close env s))) "/dev/i2c-3" = Some (Link "/dev/i2c-7").
Proof.
  cbn zeta. repeat split; reflexivity.
Qed.

(** C1 at an enumeration with the stub on bus 12 beside a real bus 1.
    The first token of the stub's line is [i2c-12]; line 136 strips the
    characters [i], [2], [c] and [-] from both ends of it, which leaves
    [1]: [open] returns with 1 as the real bus, opens the transport on
    bus 1, and points the alias at [/dev/i2c-12]. *)
Theorem C1_real_bus_of_i2c_12 :
  let r := open (Demo.env Demo.listing_12 "/dev/i2c-12" 0) 3 (Some [28])
             (Demo.boot {[ "/dev/i2c-1" := File ]}) in
  stub_token Demo.listing_12 = Some "i2c-12"
  /\ Py.strip "i2c-" "i2c-12" = "1"
  /\ outcome r = inr tt
  /\ real_bus (self (after r)) = Some 1
  /\ real_bus_path (self (after r)) = "/dev/i2c-12"
  /\ issued r =
       [Run "modprobe i2c-dev"; Run "modprobe -r i2c-stub";
        Run "modprobe i2c-stub chip_addr=0x1c"; Run "i2cdetect -l";
        Symlink "/dev/i2c-12" "/dev/i2c-3"; TransportOpen 1].
Proof.
  cbn zeta. repeat split; reflexivity.
Qed.

(* ================================================================== *)
(** ** Facts about [split], [strip], [str] and [int] *)
(* ================================================================== *)

Module PyText.

Import Decimal.

Lemma split_not_empty sep s : Py.split sep s <> [].
Proof.
  destruct s as [|c r]; cbn; [discriminate|].
  destruct (Ascii.eqb c sep); [discriminate|].
  destruct (Py.split sep r); discriminate.
Qed.

(** Cutting at a separator cuts both sides apart. *)
Lemma split_app sep (a b : string) :
  Py.split sep (a ++ String sep b) = (Py.split sep a ++ Py.split sep b)%list.
Proof.
  induction a as [|c a IH].
  - change ("" ++ String sep b) with (String sep b).
    cbn [Py.split]. now rewrite Ascii.eqb_refl.
  - change (String c a ++ String sep b) with (String c (a ++ String sep b)).
    cbn [Py.split]. rewrite IH.
    destruct (Ascii.eqb c sep); [reflexivity|].
    pose proof (split_not_empty sep a) as Hne.
    destruct (Py.split sep a); [contradiction|reflexivity].
Qed.

Lemma find_app_found {A} (f : A -> bool) (l1 l2 : list A) x :
  List.find f l1 = Some x -> List.find f (l1 ++ l2) = Some x.
Proof.
  induction l1 as [|y l1 IH]; [discriminate|].
  cbn. destruct (f y); [trivial|exact IH].
Qed.

(** On decimal digits, stripping the characters of [i2c-] is stripping
    the character [2]. *)
Lemma lstrip_digits (d : uint) :
  Py.lstrip "i2c-" (DecimalString.NilEmpty.string_of_uint d) =
  Py.lstrip "2" (DecimalString.NilEmpty.string_of_uint d).
Proof. induction d; cbn; trivial. Qed.

Lemma lstrip_2_digits (d : uint) :
  exists d', Py.lstrip "2" (DecimalString.NilEmpty.string_of_uint d) =
             DecimalString.NilEmpty.string_of_uint d'.
Proof.
  induction d.
  - now exists Nil.
  - now exists (D0 d).
  - now exists (D1 d).
  - exact IHd.
  - now exists (D3 d).
  - now exists (D4 d).
  - now exists (D5 d).
  - now exists (D6 d).
  - now exists (D7 d).
  - now exists (D8 d).
  - now exists (D9 d).
Qed.

Lemma rstrip_digits (d : uint) :
  Py.rstrip "i2c-" (DecimalString.NilEmpty.string_of_uint d) =
  Py.rstrip "2" (DecimalString.NilEmpty.string_of_uint d).
Proof.
  induction d; cbn [DecimalString.NilEmpty.string_of_uint Py.rstrip];
    [reflexivity|rewrite IHd; reflexivity..].
Qed.

Lemma strip_prefixed_digits (d : uint) :
  Py.strip "i2c-" ("i2c-" ++ DecimalString.NilEmpty.string_of_uint d) =
  Py.strip "2" (DecimalString.NilEmpty.string_of_uint d).
Proof.
  unfold Py.strip.
  change (Py.lstrip "i2c-" ("i2c-" ++ DecimalString.NilEmpty.string_of_uint d))
    with (Py.lstrip "i2c-" (DecimalString.NilEmpty.string_of_uint d)).
  rewrite lstrip_digits.
  destruct (lstrip_2_digits d) as [d' ->]. apply rstrip_digits.
Qed.

(** Evaluate [digit_value] on the character at hand. *)
Ltac eval_digit :=
  match goal with
  | |- context [Py.digit_value ?c] =>
      let v := eval vm_compute in (Py.digit_value c) in
      change (Py.digit_value c) with v
  end.

(** [int] reads back what [str] wrote. *)
Lemma digits_pos (d : uint) (acc : positive) :
  Py.digits (Z.pos acc) true (DecimalString.NilEmpty.string_of_uint d) =
  Some (Z.pos (Pos.of_uint_acc d acc)).
Proof.
  revert acc. induction d; intros acc;
    cbn [DecimalString.NilEmpty.string_of_uint Py.digits Pos.of_uint_acc];
    [reflexivity|..];
    (rewrite <- IHd; eval_digit; cbn beta iota; f_equal; lia).
Qed.

Lemma digits_zero (d : uint) :
  Py.digits 0 true (DecimalString.NilEmpty.string_of_uint d) =
  Some (Z.of_N (Pos.of_uint d)).
Proof.
  induction d;
    cbn [DecimalString.NilEmpty.string_of_uint Py.digits Pos.of_uint];
    [reflexivity|exact IHd|..];
    (eval_digit; cbn -[Py.digits Pos.of_uint_acc];
     rewrite <- digits_pos; reflexivity).
Qed.

Lemma digits_start (d : uint) :
  d <> Nil ->
  Py.digits 0 false (DecimalString.NilEmpty.string_of_uint d) =
  Py.digits 0 true (DecimalString.NilEmpty.string_of_uint d).
Proof. destruct d; [contradiction|reflexivity..]. Qed.

Lemma lstrip_ws_digits (d : uint) :
  Py.lstrip_ws (DecimalString.NilEmpty.string_of_uint d) =
  DecimalString.NilEmpty.string_of_uint d.
Proof. destruct d; reflexivity. Qed.

Lemma rstrip_ws_digits (d : uint) :
  Py.rstrip_ws (DecimalString.NilEmpty.string_of_uint d) =
  DecimalString.NilEmpty.string_of_uint d.
Proof.
  induction d; cbn [DecimalString.NilEmpty.string_of_uint Py.rstrip_ws];
    [reflexivity|rewrite IHd..];
    (destruct d; reflexivity).
Qed.

Lemma int_digits (d : uint) :
  d <> Nil ->
  Py.int (DecimalString.NilEmpty.string_of_uint d) = Some (Z.of_N (Pos.of_uint d)).
Proof.
  intros Hd. unfold Py.int. rewrite lstrip_ws_digits, rstrip_ws_digits.
  rewrite <- digits_zero, <- (digits_start d Hd).
  destruct d; [contradiction|reflexivity..].
Qed.

Lemma str_nonneg (n : Z) :
  0 <= n ->
  exists d, d <> Nil /\ Py.str n = DecimalString.NilEmpty.string_of_uint d
            /\ Z.of_N (Pos.of_uint d) = n.
Proof.
  intros Hn. destruct n as [|p|p]; [| |lia].
  - exists zero. repeat split. discriminate.
  - exists (Pos.to_uint p). split; [apply DecimalPos.Unsigned.to_uint_nonnil|].
    split; [reflexivity|].
    now rewrite DecimalPos.Unsigned.of_to.
Qed.

Lemma int_str (n : Z) : 0 <= n -> Py.int (Py.str n) = Some n.
Proof.
  intros Hn. destruct (str_nonneg n Hn) as (d & Hd & -> & <-).
  exact (int_digits d Hd).
Qed.

(** [str] writes different integers differently, and never [None]. *)
Lemma str_inj (a b : Z) : Py.str a = Py.str b -> a = b.
Proof.
  unfold Py.str. intros Heq. apply DecimalZ.to_int_inj.
  pose proof (DecimalString.NilEmpty.isi (Z.to_int a)) as Ha.
  rewrite Heq, DecimalString.NilEmpty.isi in Ha. now injection Ha.
Qed.

Lemma str_not_None (a : Z) : Py.str a <> "None".
Proof.
  unfold Py.str. destruct (Z.to_int a) as [d|d]; cbn.
  - destruct d; discriminate.
  - discriminate.
Qed.

End PyText.

(* ================================================================== *)
(** ** What the methods keep and what they issue *)
(* ================================================================== *)

Section Frames.

Context {H : Type} (env : Env H).

Implicit Types (s : state H) (w : World H).

Lemma keeps_ret {E A X} (f : FakeI2cBus -> X) (a : A) :
  keeps f (ret (H := H) (E := E) a).
Proof. intros s. reflexivity. Qed.

Lemma keeps_raise {E A X} (f : FakeI2cBus -> X) (e : E) :
  keeps f (raise (H := H) (A := A) e).
Proof. intros s. reflexivity. Qed.

Lemma keeps_bind {E A B X} (f : FakeI2cBus -> X) (m : M H E A) (k : A -> M H E B) :
  keeps f m -> (forall a, keeps f (k a)) -> keeps f (bind m k).
Proof.
  intros Hm Hk s. unfold bind, preceded.
  destruct (outcome (m s)) as [e|a] eqn:Ho; cbn [after]; [apply Hm|].
  rewrite (Hk a (after (m s))). apply Hm.
Qed.

Lemma keeps_try_except {E E' A X} (f : FakeI2cBus -> X)
    (m : M H E A) (h : E -> M H E' A) :
  keeps f m -> (forall e, keeps f (h e)) -> keeps f (try_except m h).
Proof.
  intros Hm Hh s. unfold try_except, preceded.
  destruct (outcome (m s)) as [e|a] eqn:Ho; cbn [after]; [|apply Hm].
  rewrite (Hh e (after (m s))). apply Hm.
Qed.

Lemma keeps_get_world {E X} (f : FakeI2cBus -> X) :
  keeps f (get_world (H := H) (E := E)).
Proof. intros s. reflexivity. Qed.

Lemma keeps_get_self {E X} (f : FakeI2cBus -> X) :
  keeps f (get_self (H := H) (E := E)).
Proof. intros s. reflexivity. Qed.

Lemma keeps_set_world {E X} (f : FakeI2cBus -> X) w :
  keeps f (set_world (E := E) w).
Proof. intros s. reflexivity. Qed.

Lemma keeps_emit {E X} (f : FakeI2cBus -> X) e :
  keeps f (emit (H := H) (E := E) e).
Proof. intros s. reflexivity. Qed.

Lemma keeps_set_self {E X} (f : FakeI2cBus -> X) (g : FakeI2cBus -> FakeI2cBus) :
  (forall o, f (g o) = f o) -> keeps f (set_self (H := H) (E := E) g).
Proof. intros Hg s. apply Hg. Qed.

(** Commands, file operations and the transport leave every attribute. *)
Lemma keeps_run_cmd {X} (f : FakeI2cBus -> X) cmd : keeps f (__run_cmd env cmd).
Proof. intros s. rewrite run_cmd_eq. reflexivity. Qed.

Lemma keeps_run_checked {X} (f : FakeI2cBus -> X) cmd :
  keeps f (__run_cmd_raise_exception env cmd).
Proof.
  unfold __run_cmd_raise_exception.
  apply keeps_bind; [apply keeps_run_cmd|].
  intros [[status out] err].
  destruct (negb (status =? 0)); [apply keeps_raise|apply keeps_ret].
Qed.

Lemma keeps_readlink {X} (f : FakeI2cBus -> X) p : keeps f (readlink (H := H) p).
Proof.
  unfold readlink. apply keeps_bind; [apply keeps_get_world|].
  intros w. destruct (entry w p) as [[t| |]|];
    first [apply keeps_ret | apply keeps_raise].
Qed.

Lemma keeps_unlink {X} (f : FakeI2cBus -> X) p : keeps f (unlink (H := H) p).
Proof.
  unfold unlink. apply keeps_bind; [apply keeps_emit|]. intros _.
  apply keeps_bind; [apply keeps_get_world|].
  intros w. destruct (entry w p) as [[t| |]|];
    first [apply keeps_set_world | apply keeps_raise].
Qed.

Lemma keeps_symlink {X} (f : FakeI2cBus -> X) src dst :
  keeps f (symlink (H := H) src dst).
Proof.
  unfold symlink. apply keeps_bind; [apply keeps_emit|]. intros _.
  apply keeps_bind; [apply keeps_get_world|].
  intros w. destruct (String.eqb dst ""); [apply keeps_raise|].
  destruct (entry w dst); [apply keeps_raise|apply keeps_set_world].
Qed.

Lemma keeps_super_open {X} (f : FakeI2cBus -> X) n : keeps f (super_open env n).
Proof.
  unfold super_open. destruct n as [n|]; [|apply keeps_raise].
  apply keeps_bind; [apply keeps_emit|]. intros _.
  apply keeps_bind; [apply keeps_get_world|].
  intros w. destruct (SMBus_open env n w);
    [apply keeps_raise|apply keeps_set_world].
Qed.

(** Discovery and alias creation assign [__real_bus], [__bus_link] and
    [__real_bus_path] and nothing else. *)
Lemma keeps_find_stub_line {X} (f : FakeI2cBus -> X) lines :
  (forall v o, f (set___real_bus v o) = f o) ->
  keeps f (find_stub_line (H := H) lines).
Proof.
  intros Hf. induction lines as [|line rest IH]; [apply keeps_ret|].
  cbn [find_stub_line].
  destruct (Py.contains "SMBus stub driver" line); [|exact IH].
  destruct (Py.split_ws line) as [|tok ?]; [apply keeps_raise|].
  destruct (Py.int (Py.strip "i2c-" tok)); [|apply keeps_raise].
  apply keeps_bind; [apply keeps_set_self, Hf|]. intros _. apply keeps_ret.
Qed.

Lemma keeps_create_link {X} (f : FakeI2cBus -> X) bus_link i2c_bus :
  (forall v o, f (set___real_bus_path v o) = f o) ->
  keeps f (create_link (H := H) bus_link i2c_bus).
Proof.
  intros Hf. unfold create_link.
  apply keeps_bind; [apply keeps_get_world|]. intros w.
  apply keeps_bind.
  { destruct (islink w bus_link); [|apply keeps_ret].
    apply keeps_bind; [apply keeps_readlink|]. intros t.
    apply keeps_bind; [apply keeps_get_world|]. intros w'. apply keeps_ret. }
  intros dangling. apply keeps_bind.
  { destruct dangling; [apply keeps_unlink|apply keeps_ret]. }
  intros _. apply keeps_bind; [apply keeps_set_self, Hf|]. intros _.
  apply keeps_bind; [apply keeps_get_world|]. intros w'.
  destruct (negb (islink w' bus_link)); [apply keeps_symlink|apply keeps_ret].
Qed.

Lemma keeps_symlink_i2c_stub {X} (f : FakeI2cBus -> X) :
  (forall v o, f (set___real_bus v o) = f o) ->
  (forall v o, f (set___bus_link v o) = f o) ->
  (forall v o, f (set___real_bus_path v o) = f o) ->
  keeps f (__symlink_i2c_stub env).
Proof.
  intros Hrb Hbl Hrp. unfold __symlink_i2c_stub.
  apply keeps_bind; [apply keeps_run_checked|]. intros output.
  apply keeps_bind; [apply keeps_find_stub_line, Hrb|]. intros [tok|];
    [|apply keeps_raise].
  apply keeps_bind; [apply keeps_get_self|]. intros o.
  apply keeps_bind; [apply keeps_set_self, Hbl|]. intros _.
  apply keeps_try_except; [apply keeps_create_link, Hrp|].
  intros e. apply keeps_raise.
Qed.

Lemma keeps_add_fake_devices {X} (f : FakeI2cBus -> X) dl :
  (forall v o, f (set___real_bus v o) = f o) ->
  (forall v o, f (set___bus_link v o) = f o) ->
  (forall v o, f (set___real_bus_path v o) = f o) ->
  keeps f (__add_fake_devices env dl).
Proof.
  intros Hrb Hbl Hrp. unfold __add_fake_devices.
  apply keeps_bind; [apply keeps_run_checked|]. intros _.
  apply keeps_bind; [apply keeps_run_checked|]. intros _.
  destruct dl as [l|]; [|apply keeps_raise].
  apply keeps_bind; [apply keeps_run_checked|]. intros _.
  apply keeps_symlink_i2c_stub; assumption.
Qed.

(** *** Effects *)

Lemma issues_only_bind {E A B} (P : event -> Prop) (m : M H E A) (k : A -> M H E B) :
  issues_only P m -> (forall a, issues_only P (k a)) -> issues_only P (bind m k).
Proof.
  intros Hm Hk s. unfold bind, preceded.
  destruct (outcome (m s)) as [e|a]; cbn [issued]; [apply Hm|].
  apply Forall_app. split; [apply Hm|apply Hk].
Qed.

Lemma issues_only_try_except {E E' A} (P : event -> Prop)
    (m : M H E A) (h : E -> M H E' A) :
  issues_only P m -> (forall e, issues_only P (h e)) ->
  issues_only P (try_except m h).
Proof.
  intros Hm Hh s. unfold try_except, preceded.
  destruct (outcome (m s)) as [e|a]; cbn [issued]; [|apply Hm].
  apply Forall_app. split; [apply Hm|apply Hh].
Qed.

Lemma issues_only_silent {E A} (P : event -> Prop) (m : M H E A) :
  (forall s, issued (m s) = []) -> issues_only P m.
Proof. intros Hm s. rewrite Hm. constructor. Qed.

Lemma issues_only_emit {E} (P : event -> Prop) e :
  P e -> issues_only P (emit (H := H) (E := E) e).
Proof. intros He s. cbn. constructor; [exact He|constructor]. Qed.

(** Nothing before the last line of [open] opens the transport. *)
Lemma add_fake_devices_no_transport dl :
  issues_only not_transport_open (__add_fake_devices env dl).
Proof.
  assert (Hrun : forall cmd,
             issues_only not_transport_open (__run_cmd_raise_exception env cmd)).
  { intros cmd s. rewrite run_checked_issued. repeat constructor. }
  assert (Hsilent : forall (E A : Type) (m : M H E A),
             (forall s, issued (m s) = []) -> issues_only not_transport_open m).
  { intros E A m. apply issues_only_silent. }
  unfold __add_fake_devices.
  apply issues_only_bind; [apply Hrun|]. intros _.
  apply issues_only_bind; [apply Hrun|]. intros _.
  destruct dl as [l|]; [|now apply Hsilent].
  apply issues_only_bind; [apply Hrun|]. intros _.
  unfold __symlink_i2c_stub.
  apply issues_only_bind; [apply Hrun|]. intros output.
  apply issues_only_bind.
  { intros s. rewrite find_stub_line_eq.
    destruct (find _ _) as [line|]; [|constructor].
    destruct (Py.split_ws line) as [|tok ?]; [constructor|].
    destruct (Py.int _); constructor. }
  intros [tok|]; [|now apply Hsilent].
  apply issues_only_bind; [now apply Hsilent|]. intros o.
  apply issues_only_bind; [now apply Hsilent|]. intros _.
  apply issues_only_try_except; [|intros e; now apply Hsilent].
  unfold create_link.
  apply issues_only_bind; [now apply Hsilent|]. intros w.
  apply issues_only_bind.
  { destruct (islink w (_ ++ _)); [|now apply Hsilent].
    apply issues_only_bind.
    - unfold readlink. apply issues_only_bind; [now apply Hsilent|].
      intros w'. destruct (entry w' _) as [[t| |]|]; now apply Hsilent.
    - intros t. apply issues_only_bind; [now apply Hsilent|].
      intros w'. now apply Hsilent. }
  intros dangling. apply issues_only_bind.
  { destruct dangling; [|now apply Hsilent].
    unfold unlink. apply issues_only_bind; [now apply issues_only_emit|].
    intros _. apply issues_only_bind; [now apply Hsilent|].
    intros w'. destruct (entry w' _) as [[t| |]|]; now apply Hsilent. }
  intros _. apply issues_only_bind; [now apply Hsilent|]. intros _.
  apply issues_only_bind; [now apply Hsilent|]. intros w'.
  destruct (negb _); [|now apply Hsilent].
  unfold symlink. apply issues_only_bind; [now apply issues_only_emit|].
  intros _. apply issues_only_bind; [now apply Hsilent|].
  intros w''. destruct (String.eqb _ ""); [now apply Hsilent|].
  destruct (entry w'' _); now apply Hsilent.
Qed.

(** *** Alias creation on any state *)

(** The host after the body of the [try]: as it was, or with the link
    put at the alias path, over whatever was there. *)
Lemma create_link_world bus_link i2c_bus s :
  let r := create_link bus_link i2c_bus s in
  let key := os.from_dir (cwd (world s)) bus_link in
  world (after r) = world s
  \/ world (after r) =
       with_fs (world s) (<[key := Link ("/dev/" ++ i2c_bus)]> (fs (world s)))
  \/ world (after r) =
       with_fs (world s)
         (<[key := Link ("/dev/" ++ i2c_bus)]> (delete key (fs (world s)))).
Proof.
  cbn zeta.
  destruct (String.eqb bus_link "") eqn:Hne.
  { apply String.eqb_eq in Hne. subst bus_link. left. reflexivity. }
  destruct (entry (world s) bus_link) as [[t| |]|] eqn:Hent.
  - destruct (path_exists (world s) t) eqn:Hex.
    + left. now rewrite (create_link_valid bus_link i2c_bus s t).
    + right; right. now rewrite (create_link_dangling bus_link i2c_bus s t).
  - left. rewrite (create_link_occupied bus_link i2c_bus s File);
      [reflexivity|exact Hent|discriminate].
  - left. rewrite (create_link_occupied bus_link i2c_bus s Dir);
      [reflexivity|exact Hent|discriminate].
  - right; left. now rewrite (create_link_absent bus_link i2c_bus s).
Qed.

(** *** [open] that returned, and [close] on any state *)

(** [open] returns only after the four commands have exited with
    status 0. *)
Lemma open_returned_inv b dl s :
  outcome (open env b dl s) = inr tt ->
  exists l w3 out err w4,
    dl = Some l
    /\ run_all env (module_commands l) (world s) = Some w3
    /\ subprocess_run env "i2cdetect -l" w3 = (inr (0, out, err), w4).
Proof.
  rewrite open_eq. cbn zeta.
  set (s0 := {| self := entered b dl (self s); world := world s |}).
  intros Hok.
  assert (Hadd : outcome (__add_fake_devices env dl s0) = inr tt).
  { destruct (outcome (__add_fake_devices env dl s0)) as [e|[]];
      [discriminate Hok|reflexivity]. }
  clear Hok. revert Hadd. unfold __add_fake_devices.
  destruct (subprocess_run env "modprobe i2c-dev" (world s0))
    as [[e|[[st1 o1] e1]] w1] eqn:H1.
  { erewrite bind_raises by (eapply run_checked_raised; exact H1).
    discriminate. }
  destruct (Z.eq_dec st1 0) as [->|Hst1].
  2:{ erewrite bind_raises by (eapply run_checked_nonzero; eassumption).
      discriminate. }
  erewrite bind_returns by (eapply run_checked_zero; exact H1).
  destruct (subprocess_run env "modprobe -r i2c-stub" w1)
    as [[e|[[st2 o2] e2]] w2] eqn:H2.
  { erewrite bind_raises by (eapply run_checked_raised; exact H2).
    discriminate. }
  destruct (Z.eq_dec st2 0) as [->|Hst2].
  2:{ erewrite bind_raises by (eapply run_checked_nonzero; eassumption).
      discriminate. }
  erewrite bind_returns by (eapply run_checked_zero; exact H2).
  destruct dl as [l|]; [|discriminate].
  destruct (subprocess_run env (load_stub l) w2)
    as [[e|[[st3 o3] e3]] w3] eqn:H3.
  { erewrite bind_raises by (eapply run_checked_raised; exact H3).
    discriminate. }
  destruct (Z.eq_dec st3 0) as [->|Hst3].
  2:{ erewrite bind_raises by (eapply run_checked_nonzero; eassumption).
      discriminate. }
  erewrite bind_returns by (eapply run_checked_zero; exact H3).
  unfold __symlink_i2c_stub.
  destruct (subprocess_run env "i2cdetect -l" w3)
    as [[e|[[st4 o4] e4]] w4] eqn:H4.
  { erewrite bind_raises by (eapply run_checked_raised; exact H4).
    discriminate. }
  destruct (Z.eq_dec st4 0) as [->|Hst4].
  2:{ erewrite bind_raises by (eapply run_checked_nonzero; eassumption).
      discriminate. }
  intros _. exists l, w3, o4, e4, w4. split; [reflexivity|].
  split; [|exact H4].
  unfold module_commands. cbn [run_all]. cbn [world s0] in H1.
  now rewrite H1, H2, H3.
Qed.

(** After an [open] that returned, the instance holds the alias path
    and the host holds a symbolic link there. *)
Lemma open_returned_alias b dl s :
  outcome (open env b dl s) = inr tt ->
  __bus_link (self (after (open env b dl s))) = Some ("/dev/i2c-" ++ Py.str b)
  /\ exists t, entry (world (after (open env b dl s))) ("/dev/i2c-" ++ Py.str b)
               = Some (Link t).
Proof.
  intros Hok.
  destruct (open_returned_inv b dl s Hok)
    as (l & w3 & out & err & w4 & -> & Hall & Hrun).
  revert Hok.
  destruct (stub_token out) as [tok|] eqn:Htok.
  2:{ rewrite open_eq. cbn zeta.
      rewrite (add_fake_devices_loaded env l _ w3) by exact Hall.
      rewrite (symlink_i2c_stub_listed env _ out err w4) by exact Hrun.
      unfold stub_token in Htok.
      destruct (stub_line out) as [line|]; [|discriminate].
      destruct (Py.split_ws line); [discriminate|discriminate Htok]. }
  destruct (Py.int (Py.strip "i2c-" tok)) as [n|] eqn:Hint.
  2:{ rewrite open_eq. cbn zeta.
      rewrite (add_fake_devices_loaded env l _ w3) by exact Hall.
      rewrite (symlink_i2c_stub_listed env _ out err w4) by exact Hrun.
      unfold stub_token in Htok.
      destruct (stub_line out) as [line|]; [|discriminate].
      destruct (Py.split_ws line) as [|tok' ?]; [discriminate|].
      cbn in Htok. injection Htok as ->. rewrite Hint. discriminate. }
  destruct (entry w4 ("/dev/i2c-" ++ Py.str b)) as [[target| |]|] eqn:Hent.
  - destruct (path_exists w4 target) eqn:Hex.
    + rewrite (open_alias_valid env b l s w3 out err w4 tok n target)
        by assumption.
      match goal with
      | |- context [super_open env (Some n) ?s0] =>
          destruct (super_open_frame env n s0) as (_ & Hself & Hfs & Hcwd)
      end.
      unfold preceded. cbn [after]. rewrite Hself. intros _.
      split; [reflexivity|]. exists target.
      unfold entry in *. rewrite Hfs, Hcwd. exact Hent.
    + rewrite (open_alias_dangling env b l s w3 out err w4 tok n target)
        by assumption.
      match goal with
      | |- context [super_open env (Some n) ?s0] =>
          destruct (super_open_frame env n s0) as (_ & Hself & Hfs & Hcwd)
      end.
      unfold preceded. cbn [after]. rewrite Hself. intros _.
      split; [reflexivity|]. exists ("/dev/" ++ tok).
      unfold entry. rewrite Hfs, Hcwd. cbn [fs cwd with_fs].
      apply lookup_insert_eq.
  - rewrite (open_alias_occupied env b l s w3 out err w4 tok n File)
      by (assumption || discriminate).
    discriminate.
  - rewrite (open_alias_occupied env b l s w3 out err w4 tok n Dir)
      by (assumption || discriminate).
    discriminate.
  - rewrite (open_alias_absent env b l s w3 out err w4 tok n) by assumption.
    match goal with
    | |- context [super_open env (Some n) ?s0] =>
        destruct (super_open_frame env n s0) as (_ & Hself & Hfs & Hcwd)
    end.
    unfold preceded. cbn [after]. rewrite Hself. intros _.
    split; [reflexivity|]. exists ("/dev/" ++ tok).
    unfold entry. rewrite Hfs, Hcwd. cbn [fs cwd with_fs].
    apply lookup_insert_eq.
Qed.

(** [close] with the unload run and something removable at the path. *)
Lemma close_removes s h res w' p i :
  SMBus_close env (world s) = inr h ->
  subprocess_run env "modprobe -r i2c-stub" (with_host (world s) h)
    = (inr res, w') ->
  __bus_link (self s) = Some p ->
  entry w' p = Some i ->
  i <> Dir ->
  close env s =
  Res (inr tt)
      {| self := self s;
         world := with_fs w' (delete (os.from_dir (cwd w') p) (fs w')) |}
      [TransportClose; Run "modprobe -r i2c-stub"; Unlink p].
Proof.
  intros Hc Hrun Hlink Hent Hdir.
  rewrite close_eq, Hc, del_fake_devices_eq. cbn zeta. cbn [self world].
  rewrite Hrun, Hlink. cbn [fst snd]. rewrite Hent.
  destruct i as [t| |]; [reflexivity..|contradiction].
Qed.

End Frames.

Section Extras.

Context {H : Type} (env : Env H).

Implicit Types (s : state H) (w : World H) (l : list Z).

(** X1. [FakeI2cBus(b)], a bus and no list of devices: once the first
    two commands have exited with status 0, line 92 raises [TypeError]
    on [None].  By then the stub has been unloaded; it is not loaded
    again, nothing is enumerated, no file is touched and the transport
    is not opened.  The instance holds the bus and nothing else. *)
Theorem X1_init_without_devices b s (out1 err1 out2 err2 : string) w1 w2 :
  subprocess_run env "modprobe i2c-dev" (world s) = (inr (0, out1, err1), w1) ->
  subprocess_run env "modprobe -r i2c-stub" w1 = (inr (0, out2, err2), w2) ->
  __init__ env (Some b) None s =
  Res (inl (TypeError "'NoneType' object is not iterable"))
      {| self := {| __bus := Some b; __real_bus := None; __bus_link := None;
                    __real_bus_path := None; __devices_list := None |};
         world := w2 |}
      [Run "modprobe i2c-dev"; Run "modprobe -r i2c-stub"].
Proof.
  intros H1 H2. unfold __init__, bind at 1, set_self at 1.
  cbn [outcome after issued]. unfold preceded. rewrite open_eq. cbn zeta.
  cbn [self world]. unfold __add_fake_devices.
  erewrite bind_returns by (eapply run_checked_zero; exact H1).
  erewrite bind_returns by (eapply run_checked_zero; exact H2).
  reflexivity.
Qed.

(** X2. However [open(b, dl)] ends, by returning or by raising at any
    step, the instance then holds [b] as its bus and [dl] as its list of
    devices: [bus()] reports the bus asked for also when nothing was
    provisioned. *)
Theorem X2_open_always_records_arguments b dl s :
  bus (self (after (open env b dl s))) = Some b
  /\ __devices_list (self (after (open env b dl s))) = dl.
Proof.
  rewrite open_eq. cbn zeta.
  set (s0 := {| self := entered b dl (self s); world := world s |}).
  assert (Hbus : bus (self (after (__add_fake_devices env dl s0))) = Some b).
  { rewrite (keeps_add_fake_devices env bus dl); reflexivity. }
  assert (Hdl : __devices_list (self (after (__add_fake_devices env dl s0))) = dl).
  { rewrite (keeps_add_fake_devices env __devices_list dl); reflexivity. }
  destruct (outcome (__add_fake_devices env dl s0)) as [e|[]];
    [now split|].
  unfold preceded. cbn [after].
  rewrite (keeps_super_open env bus), (keeps_super_open env __devices_list).
  now split.
Qed.

(** X3. [open] opens the transport at most once, as its very last
    effect, and on the bus it has stored as the real bus: if the opening
    of the transport on bus [n] is among the effects of [open], however
    [open] ends, then [real_bus()] is [n], the opening is the last
    effect, and no effect before it opens the transport. *)
Theorem X3_transport_opened_last_on_real_bus b dl s n :
  In (TransportOpen n) (issued (open env b dl s)) ->
  real_bus (self (after (open env b dl s))) = Some n
  /\ exists pre,
       issued (open env b dl s) = (pre ++ [TransportOpen n])%list
       /\ Forall not_transport_open pre.
Proof.
  rewrite open_eq. cbn zeta.
  set (s0 := {| self := entered b dl (self s); world := world s |}).
  pose proof (add_fake_devices_no_transport env dl s0) as Hno.
  assert (Hnot : ~ In (TransportOpen n) (issued (__add_fake_devices env dl s0))).
  { intros Hin. rewrite List.Forall_forall in Hno. exact (Hno _ Hin). }
  destruct (outcome (__add_fake_devices env dl s0)) as [e|[]];
    cbn [issued]; [intros Hin; contradiction|].
  unfold preceded. cbn [issued after].
  destruct (__real_bus (self (after (__add_fake_devices env dl s0))))
    as [m|] eqn:Hreal.
  - destruct (super_open_frame env m (after (__add_fake_devices env dl s0)))
      as (Hev & Hself & _).
    rewrite Hev, Hself. intros Hin.
    apply in_app_or in Hin as [Hin|[Hin|[]]]; [contradiction|].
    injection Hin as ->. split; [exact Hreal|]. eauto.
  - cbn. rewrite app_nil_r. intros Hin. contradiction.
Qed.

(** X4. When the modules are in, the enumeration names the stub, and
    the alias path is taken by something that is no symbolic link (a
    device node, a file, a directory), [os.symlink] refuses and [open]
    raises [FakeI2cException] with the [repr] of [FileExistsError].  The
    files stay as the enumeration left them and the transport is not
    opened, but nothing is undone: the stub stays loaded and the
    instance holds the real bus, the alias path and the real bus path. *)
Theorem X4_alias_path_taken b l s w3 out err w4 tok n i :
  run_all env (module_commands l) (world s) = Some w3 ->
  subprocess_run env "i2cdetect -l" w3 = (inr (0, out, err), w4) ->
  stub_token out = Some tok ->
  Py.int (Py.strip "i2c-" tok) = Some n ->
  entry w4 ("/dev/i2c-" ++ Py.str b) = Some i ->
  (forall t, i <> Link t) ->
  open env b (Some l) s =
  Res (inl (FakeI2cException
              "Cannot create fake i2c symlink: FileExistsError(17, 'File exists')"))
      {| self := {| __bus := Some b; __real_bus := Some n;
                    __bus_link := Some ("/dev/i2c-" ++ Py.str b);
                    __real_bus_path := Some ("/dev/" ++ tok);
                    __devices_list := Some l |};
         world := w4 |}
      (map Run (open_commands l)
       ++ [Symlink ("/dev/" ++ tok) ("/dev/i2c-" ++ Py.str b)])%list.
Proof.
  intros Hall Hrun Htok Hint Hent Hno.
  rewrite (open_at_alias env b l s w3 out err w4 tok n) by assumption.
  cbn zeta. erewrite create_link_occupied by eassumption. reflexivity.
Qed.

(** X5. The file operations of lines 144-151 touch the alias path and
    no other: whatever is found at the alias path and however the block
    ends, every other path holds afterwards what it held before, and
    the working directory and the rest of the host are as before. *)
Theorem X5_alias_creation_touches_only_the_alias bus_link i2c_bus s q :
  os.from_dir (cwd (world s)) q <> os.from_dir (cwd (world s)) bus_link ->
  let r := create_link bus_link i2c_bus s in
  entry (world (after r)) q = entry (world s) q
  /\ cwd (world (after r)) = cwd (world s)
  /\ host (world (after r)) = host (world s).
Proof.
  intros Hq. cbn zeta.
  destruct (create_link_world bus_link i2c_bus s) as [Hw|[Hw|Hw]];
    cbn zeta in Hw; rewrite Hw; clear Hw.
  - now repeat split.
  - split; [|now split]. unfold entry. cbn [fs cwd with_fs].
    destruct (String.eqb q ""); [reflexivity|].
    now rewrite lookup_insert_ne by (intros Heq; apply Hq; now symmetry).
  - split; [|now split]. unfold entry. cbn [fs cwd with_fs].
    destruct (String.eqb q ""); [reflexivity|].
    rewrite lookup_insert_ne by (intros Heq; apply Hq; now symmetry).
    now rewrite lookup_delete_ne by (intros Heq; apply Hq; now symmetry).
Qed.

(** X6. When the first token of the stub's line, stripped by line 136,
    is no integer literal, [open] ends in [ValueError], which is not the
    exception of the class.  The four commands have run and the stub is
    loaded; the real bus, the alias path and the real bus path are not
    stored, no file is touched and the transport is not opened. *)
Theorem X6_unreadable_bus_number b l s w3 out err w4 tok :
  run_all env (module_commands l) (world s) = Some w3 ->
  subprocess_run env "i2cdetect -l" w3 = (inr (0, out, err), w4) ->
  stub_token out = Some tok ->
  Py.int (Py.strip "i2c-" tok) = None ->
  open env b (Some l) s =
  Res (inl (ValueError (Py.strip "i2c-" tok)))
      {| self := entered b (Some l) (self s); world := w4 |}
      (map Run (open_commands l)).
Proof.
  intros Hall Hrun Htok Hint. rewrite open_eq. cbn zeta.
  rewrite (add_fake_devices_loaded env l _ w3) by exact Hall.
  rewrite (symlink_i2c_stub_listed env _ out err w4) by exact Hrun.
  unfold stub_token in Htok.
  destruct (stub_line out) as [line|]; [|discriminate].
  destruct (Py.split_ws line) as [|tok' ?]; [discriminate|].
  cbn in Htok. injection Htok as ->. rewrite Hint. reflexivity.
Qed.

(** X7. The first line with the marker decides: when a line of the
    enumeration carries the marker, the loop of lines 133-137 does the
    same whatever text follows the end of that part of the output, be it
    further stub lines. *)
Theorem X7_first_stub_line_decides (a b line : string) s :
  stub_line a = Some line ->
  find_stub_line (Py.split "010" (a ++ String "010" b)) s =
  find_stub_line (Py.split "010" a) s.
Proof.
  intros Hline. rewrite !find_stub_line_eq, PyText.split_app.
  unfold stub_line in Hline.
  now rewrite (PyText.find_app_found _ _ _ line Hline), Hline.
Qed.

(** X8. Line 136 reads the bus number right when its decimal writing
    neither starts nor ends with the digit 2: for a stub line whose
    first token is [i2c-] followed by such a number [n], from 0 up, the
    loop stores [n] as the real bus and yields the token. *)
Theorem X8_bus_number_without_2_at_the_ends
    (lines : list string) (line : string) (rest : list string) n s :
  List.find (Py.contains "SMBus stub driver") lines = Some line ->
  Py.split_ws line = ("i2c-" ++ Py.str n) :: rest ->
  0 <= n ->
  Py.strip "2" (Py.str n) = Py.str n ->
  find_stub_line lines s =
  Res (inr (Some ("i2c-" ++ Py.str n)))
      {| self := set___real_bus (Some n) (self s); world := world s |} [].
Proof.
  intros Hfind Htoks Hn Hno2.
  rewrite find_stub_line_eq, Hfind, Htoks.
  destruct (PyText.str_nonneg n Hn) as (d & Hd & Hstr & Hval).
  assert (Hstrip : Py.strip "i2c-" ("i2c-" ++ Py.str n) = Py.str n).
  { rewrite <- Hno2 at 2. rewrite Hstr. apply PyText.strip_prefixed_digits. }
  rewrite Hstrip, (PyText.int_str n Hn). reflexivity.
Qed.

(** X9. [close] does not look at the exit status of the unload command:
    when the transport has closed and the command has run, with any
    status, [close] removes what it finds at the stored alias path,
    unless that is a directory, be it a link [open] did not create, and
    returns. *)
Theorem X9_close_removes_alias_whatever_the_status
    s h status (out err : string) w' p i :
  SMBus_close env (world s) = inr h ->
  subprocess_run env "modprobe -r i2c-stub" (with_host (world s) h)
    = (inr (status, out, err), w') ->
  __bus_link (self s) = Some p ->
  entry w' p = Some i ->
  i <> Dir ->
  close env s =
  Res (inr tt)
      {| self := self s;
         world := with_fs w' (delete (os.from_dir (cwd w') p) (fs w')) |}
      [TransportClose; Run "modprobe -r i2c-stub"; Unlink p].
Proof.
  intros Hc Hrun Hlink Hent Hdir.
  exact (close_removes env s h (status, out, err) w' p i Hc Hrun Hlink Hent Hdir).
Qed.

(** X10. The unload and the removal of the alias share one [try]: when
    [subprocess.run] itself raises, [close] returns without calling
    [os.unlink], and the alias stays. *)
Theorem X10_close_skips_removal_when_unload_raises s h e w' :
  SMBus_close env (world s) = inr h ->
  subprocess_run env "modprobe -r i2c-stub" (with_host (world s) h)
    = (inl e, w') ->
  close env s =
  Res (inr tt) {| self := self s; world := w' |}
      [TransportClose; Run "modprobe -r i2c-stub"].
Proof.
  intros Hc Hrun.
  rewrite close_eq, Hc, del_fake_devices_eq. cbn zeta. cbn [self world].
  rewrite Hrun. reflexivity.
Qed.

(** X11. [open] then [close]: after an [open] that returned, a [close]
    whose transport closes and whose unload command runs and leaves the
    alias path alone returns and leaves nothing at the alias path, also
    when the link there was found valid by [open] and kept, not created.
    [bus_path()] goes on naming the path that is gone. *)
Theorem X11_close_after_open_removes_alias b dl s h res w' :
  outcome (open env b dl s) = inr tt ->
  let s1 := after (open env b dl s) in
  let alias := "/dev/i2c-" ++ Py.str b in
  SMBus_close env (world s1) = inr h ->
  subprocess_run env "modprobe -r i2c-stub" (with_host (world s1) h)
    = (inr res, w') ->
  entry w' alias = entry (world s1) alias ->
  outcome (close env s1) = inr tt
  /\ entry (world (after (close env s1))) alias = None
  /\ bus_path (self (after (close env s1))) = alias.
Proof.
  intros Hok. cbn zeta. intros Hc Hrun Hkept.
  destruct (open_returned_alias env b dl s Hok) as (Hlink & t & Hent).
  rewrite (close_removes env _ h res w' _ (Link t) Hc Hrun Hlink)
    by (congruence || discriminate).
  cbn [outcome after self world]. split; [reflexivity|].
  split.
  - unfold entry. cbn [fs cwd with_fs]. apply lookup_delete_eq.
  - unfold bus_path. rewrite Hlink. reflexivity.
Qed.

(** X12. The alias path of line 142 tells the buses apart: two
    instances hold the same alias path only if they hold the same bus,
    and no number gives the path of an instance without bus. *)
Theorem X12_alias_path_tells_buses_apart (x y : option Z) :
  x <> y -> "/dev/i2c-" ++ str_attr x <> "/dev/i2c-" ++ str_attr y.
Proof.
  intros Hxy Heq. apply Hxy.
  assert (Hattr : str_attr x = str_attr y).
  { revert Heq. generalize (str_attr x) (str_attr y). intros u v Huv.
    cbn in Huv. now repeat injection Huv as Huv. }
  destruct x as [a|], y as [c|]; cbn in Hattr.
  - f_equal. exact (PyText.str_inj a c Hattr).
  - destruct (PyText.str_not_None a Hattr).
  - symmetry in Hattr. destruct (PyText.str_not_None c Hattr).
  - reflexivity.
Qed.

(** X13. [close] assigns no attribute: however it ends, by returning or
    by raising what the transport raised, the accessors report what
    they reported before, the alias path included. *)
Theorem X13_close_keeps_the_attributes s :
  self (after (close env s)) = self s.
Proof.
  rewrite close_eq.
  destruct (SMBus_close env (world s)) as [e|h]; [reflexivity|].
  unfold preceded. cbn [after].
  now destruct (del_fake_devices_quiet env
                  {| self := self s; world := with_host (world s) h |})
    as [_ ->].
Qed.

(** X14. When the modules are in, the enumeration names the stub, and
    the alias path holds a link with an absolute target that does not
    exist, [open] removes that link and only then creates the link to
    the real bus path: after the four commands come [os.unlink] and [os.symlink] on
    the alias, in this order, then the transport; the alias ends as a
    link to the real bus path. *)
Theorem X14_dangling_absolute_link_replaced b l s w3 out err w4 tok n target :
  run_all env (module_commands l) (world s) = Some w3 ->
  subprocess_run env "i2cdetect -l" w3 = (inr (0, out, err), w4) ->
  stub_token out = Some tok ->
  Py.int (Py.strip "i2c-" tok) = Some n ->
  entry w4 ("/dev/i2c-" ++ Py.str b) = Some (Link target) ->
  os.absolute target = true ->
  link_target_exists w4 ("/dev/i2c-" ++ Py.str b) target = false ->
  let r := open env b (Some l) s in
  let alias := "/dev/i2c-" ++ Py.str b in
  issued r =
    (map Run (open_commands l)
     ++ [Unlink alias; Symlink ("/dev/" ++ tok) alias; TransportOpen n])%list
  /\ fs (world (after r)) =
       <[alias := Link ("/dev/" ++ tok)]> (delete alias (fs w4))
  /\ entry (world (after r)) alias = Some (Link (real_bus_path (self (after r)))).
Proof.
  intros Hall Hrun Htok Hint Hent Habs Hex. cbn zeta.
  rewrite (link_target_exists_absolute w4 _ target Habs) in Hex.
  rewrite (open_alias_dangling env b l s w3 out err w4 tok n target)
    by assumption.
  match goal with
  | |- context [super_open env (Some n) ?s0] =>
      destruct (super_open_frame env n s0) as (Hev & Hself & Hfs & Hcwd)
  end.
  unfold preceded. cbn [issued after outcome].
  rewrite Hev. split; [now rewrite <- app_assoc|].
  split; [exact Hfs|].
  unfold entry. rewrite Hfs, Hcwd, Hself. cbn [fs cwd with_fs].
  apply lookup_insert_eq.
Qed.

(** X15. When the modules are in, the enumeration names the stub, and
    the alias path holds a link with an absolute target that exists,
    [open] does nothing at that path: after the four commands comes the transport, with no
    [os.unlink] and no [os.symlink]; the files are as the enumeration
    left them and the alias still holds its old target, whatever the
    real bus path is. *)
Theorem X15_valid_absolute_link_untouched b l s w3 out err w4 tok n target :
  run_all env (module_commands l) (world s) = Some w3 ->
  subprocess_run env "i2cdetect -l" w3 = (inr (0, out, err), w4) ->
  stub_token out = Some tok ->
  Py.int (Py.strip "i2c-" tok) = Some n ->
  entry w4 ("/dev/i2c-" ++ Py.str b) = Some (Link target) ->
  os.absolute target = true ->
  link_target_exists w4 ("/dev/i2c-" ++ Py.str b) target = true ->
  let r := open env b (Some l) s in
  let alias := "/dev/i2c-" ++ Py.str b in
  issued r = (map Run (open_commands l) ++ [TransportOpen n])%list
  /\ fs (world (after r)) = fs w4
  /\ entry (world (after r)) alias = Some (Link target).
Proof.
  intros Hall Hrun Htok Hint Hent Habs Hex. cbn zeta.
  rewrite (link_target_exists_absolute w4 _ target Habs) in Hex.
  rewrite (open_alias_valid env b l s w3 out err w4 tok n target)
    by assumption.
  match goal with
  | |- context [super_open env (Some n) ?s0] =>
      destruct (super_open_frame env n s0) as (Hev & Hself & Hfs & Hcwd)
  end.
  unfold preceded. cbn [issued after outcome].
  rewrite Hev. split; [reflexivity|]. split; [exact Hfs|].
  unfold entry in *. rewrite Hfs, Hcwd. exact Hent.
Qed.

End Extras.

(** X1 on the demonstration host: [FakeI2cBus(3)]. *)
Lemma X1_witness :
  let r := __init__ (Demo.env Demo.listing_7 "/dev/i2c-7" 0) (Some 3) None
             (Demo.boot ∅) in
  outcome r = inl (TypeError "'NoneType' object is not iterable")
  /\ issued r = [Run "modprobe i2c-dev"; Run "modprobe -r i2c-stub"]
  /\ bus (self (after r)) = Some 3.
Proof.
  cbn zeta.
  erewrite (X1_init_without_devices
              (Demo.env Demo.listing_7 "/dev/i2c-7" 0) 3 (Demo.boot ∅));
    cycle 1.
  - reflexivity.
  - reflexivity.
  - repeat split.
Defined.

(** X3 on the scenario of the specification. *)
Lemma X3_witness :
  let r := open (Demo.env Demo.listing_7 "/dev/i2c-7" 0) 3 (Some [28])
             (Demo.boot ∅) in
  real_bus (self (after r)) = Some 7
  /\ exists pre,
       issued r = (pre ++ [TransportOpen 7])%list
       /\ Forall not_transport_open pre.
Proof.
  cbn zeta.
  apply (X3_transport_opened_last_on_real_bus
           (Demo.env Demo.listing_7 "/dev/i2c-7" 0) 3 (Some [28]) (Demo.boot ∅) 7).
  vm_compute. tauto.
Defined.

(** X4 on the demonstration host: bus 0 is asked for while [/dev/i2c-0]
    is the node of a real bus. *)
Lemma X4_witness :
  let r := open (Demo.env Demo.listing_7 "/dev/i2c-7" 0) 0 (Some [28])
             (Demo.boot {[ "/dev/i2c-0" := File ]}) in
  outcome r =
    inl (FakeI2cException
           "Cannot create fake i2c symlink: FileExistsError(17, 'File exists')")
  /\ real_bus (self (after r)) = Some 7
  /\ entry (world (after r)) "/dev/i2c-0" = Some File
  /\ issued r =
       [Run "modprobe i2c-dev"; Run "modprobe -r i2c-stub";
        Run "modprobe i2c-stub chip_addr=0x1c"; Run "i2cdetect -l";
        Symlink "/dev/i2c-7" "/dev/i2c-0"].
Proof.
  cbn zeta.
  erewrite (X4_alias_path_taken
              (Demo.env Demo.listing_7 "/dev/i2c-7" 0) 0 [28]
              (Demo.boot {[ "/dev/i2c-0" := File ]})); cycle 1.
  - reflexivity.
  - reflexivity.
  - reflexivity.
  - reflexivity.
  - reflexivity.
  - discriminate.
  - repeat split.
Defined.

(** X5 on a host with a dangling alias and the node of a real bus. *)
Lemma X5_witness :
  let s := Demo.boot {[ "/dev/i2c-3" := Link "/dev/i2c-9";
                        "/dev/i2c-0" := File ]} in
  let r := create_link "/dev/i2c-3" "i2c-7" s in
  entry (world (after r)) "/dev/i2c-3" = Some (Link "/dev/i2c-7")
  /\ entry (world (after r)) "/dev/i2c-0" = Some File.
Proof.
  cbn zeta. split; [reflexivity|].
  destruct (X5_alias_creation_touches_only_the_alias
              "/dev/i2c-3" "i2c-7"
              (Demo.boot {[ "/dev/i2c-3" := Link "/dev/i2c-9";
                            "/dev/i2c-0" := File ]})
              "/dev/i2c-0") as (Hent & _).
  - discriminate.
  - cbn zeta in Hent. rewrite Hent. reflexivity.
Defined.

(** X6 on the demonstration host with the stub on bus 2. *)
Lemma X6_witness :
  let r := open (Demo.env (Demo.stub_line "i2c-2") "/dev/i2c-2" 0) 3
             (Some [28]) (Demo.boot ∅) in
  outcome r = inl (ValueError "")
  /\ real_bus (self (after r)) = None
  /\ bus_path (self (after r)) = ""
  /\ issued r =
       [Run "modprobe i2c-dev"; Run "modprobe -r i2c-stub";
        Run "modprobe i2c-stub chip_addr=0x1c"; Run "i2cdetect -l"].
Proof.
  cbn zeta.
  erewrite (X6_unreadable_bus_number
              (Demo.env (Demo.stub_line "i2c-2") "/dev/i2c-2" 0) 3 [28]
              (Demo.boot ∅)); cycle 1.
  - reflexivity.
  - reflexivity.
  - reflexivity.
  - reflexivity.
  - repeat split.
Defined.

(** X7 on an enumeration with the stub on bus 7 and then on bus 9. *)
Lemma X7_witness :
  find_stub_line
    (Py.split "010" (Demo.stub_line "i2c-7" ++ String "010" (Demo.stub_line "i2c-9")))
    (Demo.boot ∅) =
  Res (inr (Some "i2c-7"))
      {| self := set___real_bus (Some 7) Demo.fresh;
         world := world (Demo.boot ∅) |} [].
Proof.
  rewrite (X7_first_stub_line_decides
             (Demo.stub_line "i2c-7") (Demo.stub_line "i2c-9")
             (Demo.stub_line "i2c-7") (Demo.boot ∅)); reflexivity.
Defined.

(** X8 on the stub on bus 7. *)
Lemma X8_witness :
  find_stub_line (Py.split "010" Demo.listing_7) (Demo.boot ∅) =
  Res (inr (Some "i2c-7"))
      {| self := set___real_bus (Some 7) Demo.fresh;
         world := world (Demo.boot ∅) |} [].
Proof.
  apply (X8_bus_number_without_2_at_the_ends
           (Py.split "010" Demo.listing_7) (Demo.stub_line "i2c-7")
           ["smbus"; "SMBus"; "stub"; "driver"; "SMBus"; "adapter"] 7
           (Demo.boot ∅)).
  - reflexivity.
  - reflexivity.
  - lia.
  - reflexivity.
Defined.

(** X9 on the demonstration host: the alias is removed although the
    unload exits with status 1. *)
Lemma X9_witness :
  let s := after (open (Demo.env Demo.listing_7 "/dev/i2c-7" 0) 3 (Some [28])
                    (Demo.boot ∅)) in
  let r := close (Demo.env Demo.listing_7 "/dev/i2c-7" 1) s in
  outcome r = inr tt
  /\ issued r = [TransportClose; Run "modprobe -r i2c-stub"; Unlink "/dev/i2c-3"]
  /\ entry (world (after r)) "/dev/i2c-3" = None.
Proof.
  cbn zeta.
  erewrite (X9_close_removes_alias_whatever_the_status
              (Demo.env Demo.listing_7 "/dev/i2c-7" 1)); cycle 1.
  - vm_compute. reflexivity.
  - vm_compute. reflexivity.
  - vm_compute. reflexivity.
  - vm_compute. reflexivity.
  - discriminate.
  - repeat split.
Defined.

(** X10 on the host that cannot start a process: the alias stays. *)
Lemma X10_witness :
  let s := after (open (Demo.env Demo.listing_7 "/dev/i2c-7" 0) 3 (Some [28])
                    (Demo.boot ∅)) in
  let r := close Demo.env_no_fork s in
  outcome r = inr tt
  /\ issued r = [TransportClose; Run "modprobe -r i2c-stub"]
  /\ entry (world (after r)) "/dev/i2c-3" = Some (Link "/dev/i2c-7").
Proof.
  cbn zeta.
  erewrite (X10_close_skips_removal_when_unload_raises Demo.env_no_fork);
    cycle 1.
  - vm_compute. reflexivity.
  - vm_compute. reflexivity.
  - repeat split; vm_compute; reflexivity.
Defined.

(** X11 on the demonstration host: [/dev/i2c-3] is a valid link to the
    real bus 0 before [open], is kept by [open], and is gone after
    [close]. *)
Lemma X11_witness :
  let env := Demo.env Demo.listing_7 "/dev/i2c-7" 0 in
  let s := Demo.boot {[ "/dev/i2c-3" := Link "/dev/i2c-0";
                        "/dev/i2c-0" := File ]} in
  let s1 := after (open env 3 (Some [28]) s) in
  entry (world s1) "/dev/i2c-3" = Some (Link "/dev/i2c-0")
  /\ outcome (close env s1) = inr tt
  /\ entry (world (after (close env s1))) "/dev/i2c-3" = None
  /\ bus_path (self (after (close env s1))) = "/dev/i2c-3".
Proof.
  cbn zeta. split; [vm_compute; reflexivity|].
  eapply (X11_close_after_open_removes_alias
            (Demo.env Demo.listing_7 "/dev/i2c-7" 0) 3 (Some [28])
            (Demo.boot {[ "/dev/i2c-3" := Link "/dev/i2c-0";
                          "/dev/i2c-0" := File ]})).
  - vm_compute; reflexivity.
  - vm_compute; reflexivity.
  - vm_compute; reflexivity.
  - vm_compute; reflexivity.
Defined.

(** X12 on the buses 3 and 13. *)
Lemma X12_witness : "/dev/i2c-3" <> "/dev/i2c-13".
Proof.
  apply (X12_alias_path_tells_buses_apart (Some 3) (Some 13)). discriminate.
Defined.

(** X14 on the demonstration host: [/dev/i2c-3] is left over from a run
    that had the stub on bus 9. *)
Lemma X14_witness :
  let r := open (Demo.env Demo.listing_7 "/dev/i2c-7" 0) 3 (Some [28])
             (Demo.boot {[ "/dev/i2c-3" := Link "/dev/i2c-9" ]}) in
  issued r =
    [Run "modprobe i2c-dev"; Run "modprobe -r i2c-stub";
     Run "modprobe i2c-stub chip_addr=0x1c"; Run "i2cdetect -l";
     Unlink "/dev/i2c-3"; Symlink "/dev/i2c-7" "/dev/i2c-3"; TransportOpen 7]
  /\ entry (world (after r)) "/dev/i2c-3" = Some (Link "/dev/i2c-7").
Proof.
  cbn zeta.
  edestruct (X14_dangling_absolute_link_replaced
               (Demo.env Demo.listing_7 "/dev/i2c-7" 0) 3 [28]
               (Demo.boot {[ "/dev/i2c-3" := Link "/dev/i2c-9" ]}))
    as (Hev & _ & Hent).
  - reflexivity.
  - reflexivity.
  - reflexivity.
  - reflexivity.
  - reflexivity.
  - reflexivity.
  - reflexivity.
  - split; [exact Hev|exact Hent].
Defined.

(** X15 on the demonstration host: [/dev/i2c-3] points at the real bus 0
    while the stub is on bus 7. *)
Lemma X15_witness :
  let r := open (Demo.env Demo.listing_7 "/dev/i2c-7" 0) 3 (Some [28])
             (Demo.boot {[ "/dev/i2c-3" := Link "/dev/i2c-0";
                           "/dev/i2c-0" := File ]}) in
  issued r =
    [Run "modprobe i2c-dev"; Run "modprobe -r i2c-stub";
     Run "modprobe i2c-stub chip_addr=0x1c"; Run "i2cdetect -l";
     TransportOpen 7]
  /\ entry (world (after r)) "/dev/i2c-3" = Some (Link "/dev/i2c-0").
Proof.
  cbn zeta.
  edestruct (X15_valid_absolute_link_untouched
               (Demo.env Demo.listing_7 "/dev/i2c-7" 0) 3 [28]
               (Demo.boot {[ "/dev/i2c-3" := Link "/dev/i2c-0";
                             "/dev/i2c-0" := File ]}))
    as (Hev & _ & Hent).
  - reflexivity.
  - reflexivity.
  - reflexivity.
  - reflexivity.
  - reflexivity.
  - reflexivity.
  - reflexivity.
  - split; [exact Hev|exact Hent].
Defined.
